(** * SanyoCCB: a bit-banged driver for the Sanyo CCB bus

    Shallow embedding of [SanyoCCB.cpp] / [SanyoCCB.h] and the properties
    of its byte serialisation and transfer sequencing.

    The driver only talks to the outside through four Arduino primitives
    ([pinMode], [digitalWrite], [digitalRead], [delayMicroseconds]).  They
    are modelled as operations of a small state-and-fault monad over a
    [world] that records every primitive call in order, supplies the
    levels that [digitalRead] samples, and holds the caller's buffer. *)

From Stdlib Require Import ZArith List Bool Lia.
From stdpp Require Import base list.
Import ListNotations.

Local Open Scope Z_scope.

(** ** Fixed-width integers of the source *)

(** [byte] / [uint8_t]: conversion keeps the low eight bits. *)
Definition to_byte (z : Z) : Z := z mod 256.

(** [int8_t]: conversion wraps around into [-128, 127]. *)
Definition to_int8 (z : Z) : Z := (z + 128) mod 256 - 128.

Definition in_int8 (z : Z) : Prop := -128 <= z <= 127.

(** ** The platform: lines, events and the world *)

Inductive level : Set := Low | High.

Inductive event : Set :=
| PinMode (pin mode : Z)
| DigitalWrite (pin : Z) (v : level)
| DigitalRead (pin : Z) (v : level)
| DelayMicroseconds (us : Z).

(** [trace]: the primitive calls made so far, oldest first.
    [sampled pin k]: the level the platform reports when the [k]-th
    [digitalRead] of the run is made on [pin].
    [reads]: how many [digitalRead] calls were made so far.
    [mem]: the array the [data] pointer of a transfer points to. *)
Record world : Type := World {
  trace : list event;
  sampled : Z -> nat -> level;
  reads : nat;
  mem : list Z
}.

Definition emit (evs : list event) (w : world) : world :=
  World (trace w ++ evs) (sampled w) (reads w) (mem w).

(** Outcome of running a piece of the driver: it returns, it steps outside
    the buffer (undefined behaviour in C++), or the model's loop fuel is
    exhausted. *)
Inductive outcome (A : Type) : Type :=
| Done (a : A) (w : world)
| Undefined
| OutOfFuel.
Arguments Done {A} a w.
Arguments Undefined {A}.
Arguments OutOfFuel {A}.

Definition M (A : Type) : Type := world -> outcome A.

Definition ret {A} (a : A) : M A := fun w => Done a w.

Definition bind {A B} (m : M A) (k : A -> M B) : M B :=
  fun w =>
    match m w with
    | Done a w' => k a w'
    | Undefined => Undefined
    | OutOfFuel => OutOfFuel
    end.

Declare Scope ccb_scope.
Delimit Scope ccb_scope with ccb.
Notation "x <- m ;; k" := (bind m (fun x => k))
  (at level 100, m at next level, right associativity) : ccb_scope.
Notation "m ;; k" := (bind m (fun _ => k))
  (at level 100, right associativity) : ccb_scope.
Local Open Scope ccb_scope.

(** *** Arduino.h: constants, bit macros and pin primitives *)

Definition LOW : Z := 0.
Definition HIGH : Z := 1.
Definition INPUT : Z := 0.
Definition OUTPUT : Z := 1.

Definition level_of_Z (val : Z) : level := if val =? LOW then Low else High.
Definition Z_of_level (v : level) : Z := match v with Low => LOW | High => HIGH end.

(** [bitRead(value, bit)] is [((value) >> (bit)) & 0x01]. *)
Definition bitRead (value bit : Z) : Z := Z.land (Z.shiftr value bit) 1.

(** [bitSet(value, bit)] is [value |= (1UL << bit)],
    [bitClear(value, bit)] is [value &= ~(1UL << bit)], and
    [bitWrite(value, bit, b)] is [b ? bitSet(value, bit) : bitClear(value, bit)]. *)
Definition bitSet (value bit : Z) : Z := Z.lor value (Z.shiftl 1 bit).
Definition bitClear (value bit : Z) : Z := Z.land value (Z.lnot (Z.shiftl 1 bit)).
Definition bitWrite (value bit bitvalue : Z) : Z :=
  if bitvalue =? 0 then bitClear value bit else bitSet value bit.

(** The four pin primitives. [digitalWrite] drives the line low when
    its value is [LOW] and high otherwise; [digitalRead] returns [HIGH] or
    [LOW] according to the level the line presents. *)
Definition pinMode (pin mode : Z) : M unit :=
  fun w => Done tt (emit [PinMode pin mode] w).

Definition digitalWrite (pin val : Z) : M unit :=
  fun w => Done tt (emit [DigitalWrite pin (level_of_Z val)] w).

Definition digitalRead (pin : Z) : M Z :=
  fun w =>
    let v := sampled w pin (reads w) in
    Done (Z_of_level v)
         (World (trace w ++ [DigitalRead pin v]) (sampled w) (S (reads w)) (mem w)).

Definition delayMicroseconds (us : Z) : M unit :=
  fun w => Done tt (emit [DelayMicroseconds us] w).

(** *** The buffer behind [byte *data] *)

(** [data[i]] as an rvalue; an index outside the array is undefined. *)
Definition load (i : Z) : M Z :=
  fun w =>
    if i <? 0 then Undefined
    else match mem w !! Z.to_nat i with
         | Some b => Done b w
         | None => Undefined
         end.

(** [data[i] = v]; an index outside the array is undefined. *)
Definition store (i v : Z) : M unit :=
  fun w =>
    if i <? 0 then Undefined
    else if (Z.to_nat i <? length (mem w))%nat
         then Done tt (World (trace w) (sampled w) (reads w) (<[Z.to_nat i := v]> (mem w)))
         else Undefined.

(** *** [for] loops over an [int8_t] counter *)

(** [for (int8_t i = init; cond(i); i = next(i)) acc = body(i, acc);]
    Every value assigned to the counter is narrowed to [int8_t]. [acc]
    carries the locals the body updates. *)
Fixpoint loop_int8 {A} (fuel : nat) (cond : Z -> bool) (next : Z -> Z)
         (body : Z -> A -> M A) (i : Z) (acc : A) : M A :=
  match fuel with
  | O => fun _ => OutOfFuel
  | S fuel' =>
      if cond i
      then acc' <- body i acc ;; loop_int8 fuel' cond next body (to_int8 (next i)) acc'
      else ret acc
  end.

Definition for_int8 {A} (fuel : nat) (init : Z) (cond : Z -> bool) (next : Z -> Z)
           (body : Z -> A -> M A) (acc : A) : M A :=
  loop_int8 fuel cond next body (to_int8 init) acc.

(** The counter values at which the body of such a loop runs, in order,
    for a loop entered with the counter at [i]. *)
Fixpoint loop_indices (fuel : nat) (cond : Z -> bool) (next : Z -> Z) (i : Z) : list Z :=
  match fuel with
  | O => []
  | S fuel' =>
      if cond i
      then i :: loop_indices fuel' cond next (to_int8 (next i))
      else []
  end.

(** The values the counter of [for_int8] is given, before they are
    narrowed to [int8_t]: the initialiser, then the result of the
    increment expression after each run of the body. *)
Definition counter_values (fuel : nat) (init : Z) (cond : Z -> bool)
           (next : Z -> Z) : list Z :=
  init :: map next (loop_indices fuel cond next (to_int8 init)).

(** Running a loop body at each of the counter values [js] in turn. *)
Fixpoint run_at {A} (body : Z -> A -> M A) (js : list Z) (acc : A) : M A :=
  match js with
  | [] => ret acc
  | j :: rest => acc' <- body j acc ;; run_at body rest acc'
  end.

(** ** SanyoCCB.h *)

Definition _CCB_SEND : Z := 0.
Definition _CCB_RECEIVE : Z := 1.

Record SanyoCCB : Set := {
  _do_pin : Z;
  _cl_pin : Z;
  _di_pin : Z;
  _ce_pin : Z
}.

(** ** SanyoCCB.cpp *)

Definition CCB_DELAY : Z := 100.

(** The constructor takes four [uint8_t] and stores them. *)
Definition new_SanyoCCB (do_pin cl_pin di_pin ce_pin : Z) : SanyoCCB :=
  {| _do_pin := to_byte do_pin;
     _cl_pin := to_byte cl_pin;
     _di_pin := to_byte di_pin;
     _ce_pin := to_byte ce_pin |}.

(** The argument of the first [writeByte] call of [ccb]:
    [(address >> 4) | (address << 4)], computed on [int] and narrowed to
    [byte] when it is passed. *)
Definition framed_address (address : Z) : Z :=
  to_byte (Z.lor (Z.shiftr address 4) (Z.shiftl address 4)).

Section Methods.
Variable self : SanyoCCB.
Variable fuel : nat.

Definition init : M unit :=
  pinMode (_do_pin self) OUTPUT ;;
  pinMode (_cl_pin self) OUTPUT ;;
  pinMode (_ce_pin self) OUTPUT ;;
  pinMode (_di_pin self) INPUT ;;
  digitalWrite (_di_pin self) HIGH ;;
  digitalWrite (_do_pin self) LOW ;;
  digitalWrite (_cl_pin self) LOW ;;
  digitalWrite (_ce_pin self) HIGH ;; delayMicroseconds CCB_DELAY ;;
  digitalWrite (_ce_pin self) LOW ;; delayMicroseconds CCB_DELAY.

Definition writeByte (data : Z) : M unit :=
  for_int8 fuel 0 (fun i => i <=? 7) (fun i => i + 1)
    (fun i _ =>
       digitalWrite (_do_pin self) (bitRead data i) ;;
       digitalWrite (_cl_pin self) HIGH ;; delayMicroseconds CCB_DELAY ;;
       digitalWrite (_cl_pin self) LOW ;; delayMicroseconds CCB_DELAY)
    tt.

Definition readByte : M Z :=
  for_int8 fuel 7 (fun i => i >=? 0) (fun i => i - 1)
    (fun i data =>
       digitalWrite (_cl_pin self) HIGH ;; delayMicroseconds CCB_DELAY ;;
       v <- digitalRead (_di_pin self) ;;
       let data := to_byte (bitWrite data i v) in
       digitalWrite (_cl_pin self) LOW ;; delayMicroseconds CCB_DELAY ;;
       ret data)
    0.

Definition ccb (address : Z) (dataLength : Z) (mode : Z) : M unit :=
  writeByte (framed_address address) ;;
  digitalWrite (_cl_pin self) LOW ;;
  digitalWrite (_ce_pin self) HIGH ;; delayMicroseconds CCB_DELAY ;;
  (if mode =? _CCB_SEND then
     for_int8 fuel (dataLength - 1) (fun i => i >=? 0) (fun i => i - 1)
       (fun i _ => b <- load i ;; writeByte b) tt ;;
     digitalWrite (_do_pin self) LOW
   else if mode =? _CCB_RECEIVE then
     for_int8 fuel 0 (fun i => i <? dataLength) (fun i => i + 1)
       (fun i _ => b <- readByte ;; store i b) tt
   else ret tt) ;;
  digitalWrite (_ce_pin self) LOW ;; delayMicroseconds CCB_DELAY.

Definition diPinState : M Z := digitalRead (_di_pin self).

Definition write (address : Z) (dataLength : Z) : M unit :=
  ccb address dataLength _CCB_SEND.

Definition read (address : Z) (dataLength : Z) : M unit :=
  ccb address dataLength _CCB_RECEIVE.
End Methods.

(** ** Reading a trace *)

(** The level of line [pin] after event [e], when it was [cur] before:
    only a [digitalWrite] to that very pin changes it. *)
Definition drive (pin : Z) (cur : level) (e : event) : level :=
  match e with
  | DigitalWrite p v => if p =? pin then v else cur
  | _ => cur
  end.

Definition line_level (pin : Z) (cur : level) (evs : list event) : level :=
  fold_left (drive pin) evs cur.

Definition is_rise (a b : level) : bool :=
  match a, b with Low, High => true | _, _ => false end.

Definition is_fall (a b : level) : bool :=
  match a, b with High, Low => true | _, _ => false end.

(** Number of transitions of line [pin] accepted by [edge] while [evs]
    happen, starting from level [cur]. *)
Fixpoint edges (edge : level -> level -> bool) (pin : Z) (cur : level)
         (evs : list event) : nat :=
  match evs with
  | [] => O
  | e :: rest =>
      let nxt := drive pin cur e in
      ((if edge cur nxt then 1 else 0) + edges edge pin nxt rest)%nat
  end.

Definition writes_to (pin : Z) (e : event) : bool :=
  match e with
  | DigitalWrite p _ => p =? pin
  | _ => false
  end.

(** No event of [evs] is a [digitalWrite] to [pin]. *)
Definition quiet (pin : Z) (evs : list event) : bool :=
  forallb (fun e => negb (writes_to pin e)) evs.

(** ** What the byte primitives put on the lines *)

Definition level_of_bit (b : bool) : level := if b then High else Low.

(** One clocked output bit: OUT, then CLOCK up, hold, CLOCK down, hold. *)
Definition out_bit_events (self : SanyoCCB) (v : level) : list event :=
  [ DigitalWrite (_do_pin self) v;
    DigitalWrite (_cl_pin self) High; DelayMicroseconds CCB_DELAY;
    DigitalWrite (_cl_pin self) Low; DelayMicroseconds CCB_DELAY ].

Definition writeByte_events (self : SanyoCCB) (b : Z) : list event :=
  flat_map (fun i => out_bit_events self (level_of_bit (Z.testbit b i)))
           [0; 1; 2; 3; 4; 5; 6; 7].

(** One clocked input bit: CLOCK up, hold, sample IN, CLOCK down, hold. *)
Definition in_bit_events (self : SanyoCCB) (v : level) : list event :=
  [ DigitalWrite (_cl_pin self) High; DelayMicroseconds CCB_DELAY;
    DigitalRead (_di_pin self) v;
    DigitalWrite (_cl_pin self) Low; DelayMicroseconds CCB_DELAY ].

Definition readByte_events (self : SanyoCCB) (samples : list level) : list event :=
  flat_map (in_bit_events self) samples.

(** The byte whose bits, most significant first, are [samples]. *)
Definition byte_msb_first (samples : list level) : Z :=
  fold_left (fun acc v => 2 * acc + Z_of_level v) samples 0.

(** The [n] levels the next [n] [digitalRead] calls on [pin] will see,
    when [r] reads were made before. *)
Definition upcoming (s : Z -> nat -> level) (pin : Z) (r n : nat) : list level :=
  map (s pin) (seq r n).

(** The world after [n] more samples of [pin] were taken and [evs] were
    appended to the trace. *)
Definition after_reads (n : nat) (evs : list event) (w : world) : world :=
  World (trace w ++ evs) (sampled w) (n + reads w) (mem w).

(** The byte under assembly after one more sampled level [v] was written
    at bit [i]. *)
Definition with_bit (data i : Z) (v : level) : Z :=
  to_byte (bitWrite data i (Z_of_level v)).

(** ** What the payload loops do *)

(** The bytes [n] successive [readByte] calls return, when [r] reads
    were made before the first of them. *)
Fixpoint rx_bytes (s : Z -> nat -> level) (pin : Z) (r n : nat) : list Z :=
  match n with
  | O => []
  | S n' => byte_msb_first (upcoming s pin r 8) :: rx_bytes s pin (8 + r) n'
  end.

(** The events of those [n] calls. *)
Fixpoint rx_events (self : SanyoCCB) (s : Z -> nat -> level) (r n : nat) : list event :=
  match n with
  | O => []
  | S n' => readByte_events self (upcoming s (_di_pin self) r 8)
              ++ rx_events self s (8 + r) n'
  end.

(** The events of [writeByte] on each byte of [bs] in turn. *)
Definition tx_events (self : SanyoCCB) (bs : list Z) : list event :=
  flat_map (writeByte_events self) bs.

(** ** The phases of a transfer *)

Definition address_events (self : SanyoCCB) (address : Z) : list event :=
  writeByte_events self (framed_address address).

(** Entering the data phase: CLOCK low, ENABLE high, hold. *)
Definition enter_events (self : SanyoCCB) : list event :=
  [ DigitalWrite (_cl_pin self) Low;
    DigitalWrite (_ce_pin self) High; DelayMicroseconds CCB_DELAY ].

(** Leaving the data phase: ENABLE low, hold. *)
Definition exit_events (self : SanyoCCB) : list event :=
  [ DigitalWrite (_ce_pin self) Low; DelayMicroseconds CCB_DELAY ].

(** The payload part of a SEND: the bytes, then OUT low. *)
Definition send_events (self : SanyoCCB) (bs : list Z) : list event :=
  tx_events self bs ++ [DigitalWrite (_do_pin self) Low].

(** Number of iterations of the SEND loop for a given [dataLength]. *)
Definition send_count (dataLength : Z) : nat :=
  Z.to_nat (to_int8 (dataLength - 1) + 1).

(** Number of iterations of the RECEIVE loop for a given [dataLength]. *)
Definition receive_count (dataLength : Z) : nat := Z.to_nat dataLength.

Definition is_high (v : level) : bool :=
  match v with High => true | Low => false end.

(** ** A concrete bus and world, for instances *)

(** The bus of [construct(2, 3, 4, 5)]: OUT on 2, CLOCK on 3, IN on 4,
    ENABLE on 5. *)
Definition demo_bus : SanyoCCB := new_SanyoCCB 2 3 4 5.

(** A fresh world around [buffer] whose input line alternates, starting
    high. *)
Definition demo_world (buffer : list Z) : world :=
  World [] (fun _ k => if Nat.even k then High else Low) 0 buffer.

(** ** Observing a whole run *)

(** The levels a receiver latches from line [data] when it samples it at
    every rising edge of line [clk], while [evs] happen; [d] and [c] are
    the levels of the two lines before. *)
Fixpoint latched (data clk : Z) (d c : level) (evs : list event) : list level :=
  match evs with
  | [] => []
  | e :: rest =>
      let d' := drive data d e in
      let c' := drive clk c e in
      (if is_rise c c' then [d'] else []) ++ latched data clk d' c' rest
  end.

(** The bytes whose bits, least significant first, are the successive
    groups of eight levels of [bits]; a last incomplete group is dropped. *)
Fixpoint pack_lsb_first (bits : list level) : list Z :=
  match bits with
  | b0 :: b1 :: b2 :: b3 :: b4 :: b5 :: b6 :: b7 :: rest =>
      (Z_of_level b0 + 2 * Z_of_level b1 + 4 * Z_of_level b2
       + 8 * Z_of_level b3 + 16 * Z_of_level b4 + 32 * Z_of_level b5
       + 64 * Z_of_level b6 + 128 * Z_of_level b7) :: pack_lsb_first rest
  | _ => []
  end.

(** The eight levels [writeByte] gives OUT for [b], in the order it
    drives them. *)
Definition bits_lsb_first (b : Z) : list level :=
  map (fun i => level_of_bit (Z.testbit b i)) [0; 1; 2; 3; 4; 5; 6; 7].

(** Microseconds spent in [delayMicroseconds] over [evs]. *)
Definition total_delay (evs : list event) : Z :=
  fold_right (fun e acc => match e with
                           | DelayMicroseconds us => us + acc
                           | _ => acc
                           end) 0 evs.

Definition is_sample (e : event) : bool :=
  match e with DigitalRead _ _ => true | _ => false end.

Definition is_byte (z : Z) : Prop := 0 <= z <= 255.

Definition level_eqb (a b : level) : bool :=
  match a, b with
  | Low, Low | High, High => true
  | _, _ => false
  end.

(** Every event of [evs] picked by [p] happens while line [pin] is at
    level [lvl]; [cur] is the level of the line before [evs]. *)
Fixpoint each_while (p : event -> bool) (pin : Z) (lvl cur : level)
         (evs : list event) : bool :=
  match evs with
  | [] => true
  | e :: rest =>
      (if p e then level_eqb cur lvl else true)
      && each_while p pin lvl (drive pin cur e) rest
  end.

(** *** Programs over the public interface *)

(** One call of a public method of the class. *)
Inductive call : Set :=
| CallInit
| CallWrite (address dataLength : Z)
| CallRead (address dataLength : Z)
| CallDiPinState.

Definition run_call (self : SanyoCCB) (fuel : nat) (c : call) : M unit :=
  match c with
  | CallInit => init self
  | CallWrite address dataLength => write self fuel address dataLength
  | CallRead address dataLength => read self fuel address dataLength
  | CallDiPinState => _ <- diPinState self ;; ret tt
  end.

(** The calls of [cs] one after the other, on the same buffer. *)
Fixpoint run_calls (self : SanyoCCB) (fuel : nat) (cs : list call) : M unit :=
  match cs with
  | [] => ret tt
  | c :: rest => run_call self fuel c ;; run_calls self fuel rest
  end.

(** A call that keeps to the documented contract for a buffer of [size]
    bytes: a length within 0..127 and within the buffer. *)
Definition within_contract (size : nat) (c : call) : Prop :=
  match c with
  | CallWrite _ dataLength | CallRead _ dataLength =>
      0 <= dataLength <= 127 /\ (Z.to_nat dataLength <= size)%nat
  | _ => True
  end.

(** ** Stepping lemmas *)

Lemma emit_emit (e1 e2 : list event) (w : world) :
  emit e2 (emit e1 w) = emit (e1 ++ e2) w.
Proof. unfold emit; simpl. now rewrite app_assoc. Qed.

Lemma emit_nil (w : world) : emit [] w = w.
Proof. destruct w; unfold emit; simpl. now rewrite app_nil_r. Qed.

Lemma to_int8_id (z : Z) : in_int8 z -> to_int8 z = z.
Proof.
  unfold in_int8, to_int8; intros H.
  rewrite Z.mod_small; lia.
Qed.

Lemma to_int8_range (z : Z) : in_int8 (to_int8 z).
Proof.
  unfold in_int8, to_int8.
  pose proof (Z.mod_pos_bound (z + 128) 256); lia.
Qed.

Lemma bitRead_testbit (b i : Z) :
  0 <= i -> bitRead b i = Z.b2z (Z.testbit b i).
Proof.
  intros Hi. unfold bitRead.
  change 1 with (Z.ones 1) at 1.
  rewrite Z.land_ones by lia.
  change (2 ^ 1) with 2.
  rewrite <- Z.bit0_mod, Z.shiftr_spec by lia.
  now rewrite Z.add_0_l.
Qed.

Lemma level_of_bitRead (b i : Z) :
  0 <= i -> level_of_Z (bitRead b i) = level_of_bit (Z.testbit b i).
Proof.
  intros Hi. rewrite bitRead_testbit by assumption.
  now destruct (Z.testbit b i).
Qed.

Lemma loop_int8_step {A} (fuel : nat) (cond : Z -> bool) (next : Z -> Z)
      (body : Z -> A -> M A) (i i' : Z) (acc acc' : A) (w w' : world) :
  cond i = true ->
  body i acc w = Done acc' w' ->
  to_int8 (next i) = i' ->
  loop_int8 (S fuel) cond next body i acc w
  = loop_int8 fuel cond next body i' acc' w'.
Proof.
  intros Hc Hb Hn. simpl. rewrite Hc. unfold bind. now rewrite Hb, Hn.
Qed.

Lemma loop_int8_exit {A} (fuel : nat) (cond : Z -> bool) (next : Z -> Z)
      (body : Z -> A -> M A) (i : Z) (acc : A) (w : world) :
  cond i = false ->
  loop_int8 (S fuel) cond next body i acc w = Done acc w.
Proof.
  intros Hc. simpl. now rewrite Hc.
Qed.

(** A loop that leaves within its fuel runs its body exactly at its
    [loop_indices]. *)
Lemma loop_int8_run_at {A} (cond : Z -> bool) (next : Z -> Z)
      (body : Z -> A -> M A) (fuel : nat) :
  forall (i : Z) (acc : A) (w : world),
    (length (loop_indices fuel cond next i) < fuel)%nat ->
    loop_int8 fuel cond next body i acc w
    = run_at body (loop_indices fuel cond next i) acc w.
Proof.
  induction fuel as [|fuel IH]; intros i acc w Hlen; [simpl in Hlen; lia|].
  cbn [loop_int8 loop_indices] in *.
  destruct (cond i); [|reflexivity].
  cbn [run_at length] in *. unfold bind.
  destruct (body i acc w) as [acc' w'| |]; try reflexivity.
  apply IH. lia.
Qed.

(** One iteration of the loop of [writeByte]. *)
Lemma out_bit_run (self : SanyoCCB) (data i : Z) (w : world) :
  0 <= i ->
  (digitalWrite (_do_pin self) (bitRead data i) ;;
   digitalWrite (_cl_pin self) HIGH ;; delayMicroseconds CCB_DELAY ;;
   digitalWrite (_cl_pin self) LOW ;; delayMicroseconds CCB_DELAY) w
  = Done tt (emit (out_bit_events self (level_of_bit (Z.testbit data i))) w).
Proof.
  intros Hi. unfold bind, digitalWrite, delayMicroseconds.
  rewrite !emit_emit, level_of_bitRead by assumption.
  reflexivity.
Qed.

Lemma writeByte_run (self : SanyoCCB) (fuel : nat) (b : Z) (w : world) :
  (8 < fuel)%nat ->
  writeByte self fuel b w = Done tt (emit (writeByte_events self b) w).
Proof.
  intros Hf.
  do 9 (destruct fuel as [|fuel]; [lia|]).
  unfold writeByte, for_int8.
  change (to_int8 0) with 0.
  do 8 (erewrite loop_int8_step;
        [ | reflexivity | apply out_bit_run; lia | vm_compute; reflexivity ]).
  rewrite loop_int8_exit by reflexivity.
  rewrite !emit_emit. reflexivity.
Qed.

Lemma after_reads_after_reads (n1 n2 : nat) (e1 e2 : list event) (w : world) :
  after_reads n2 e2 (after_reads n1 e1 w) = after_reads (n2 + n1) (e1 ++ e2) w.
Proof.
  unfold after_reads; simpl. now rewrite app_assoc, Nat.add_assoc.
Qed.

(** One iteration of the loop of [readByte]. *)
Lemma in_bit_run (self : SanyoCCB) (data i : Z) (w : world) :
  (digitalWrite (_cl_pin self) HIGH ;; delayMicroseconds CCB_DELAY ;;
   v <- digitalRead (_di_pin self) ;;
   let data := to_byte (bitWrite data i v) in
   digitalWrite (_cl_pin self) LOW ;; delayMicroseconds CCB_DELAY ;;
   ret data) w
  = let v := sampled w (_di_pin self) (reads w) in
    Done (with_bit data i v) (after_reads 1 (in_bit_events self v) w).
Proof.
  unfold bind, digitalWrite, delayMicroseconds, digitalRead, ret, emit,
    after_reads, in_bit_events, with_bit.
  cbn [trace sampled reads mem].
  repeat rewrite <- app_assoc. reflexivity.
Qed.

Lemma assemble_msb_first (l7 l6 l5 l4 l3 l2 l1 l0 : level) :
  with_bit (with_bit (with_bit (with_bit (with_bit (with_bit (with_bit
    (with_bit 0 7 l7) 6 l6) 5 l5) 4 l4) 3 l3) 2 l2) 1 l1) 0 l0
  = byte_msb_first [l7; l6; l5; l4; l3; l2; l1; l0].
Proof.
  destruct l7, l6, l5, l4, l3, l2, l1, l0; vm_compute; reflexivity.
Qed.

Lemma readByte_run (self : SanyoCCB) (fuel : nat) (w : world) :
  (8 < fuel)%nat ->
  let samples := upcoming (sampled w) (_di_pin self) (reads w) 8 in
  readByte self fuel w =
    Done (byte_msb_first samples) (after_reads 8 (readByte_events self samples) w).
Proof.
  intros Hf samples. subst samples.
  do 9 (destruct fuel as [|fuel]; [lia|]).
  unfold readByte, for_int8.
  change (to_int8 7) with 7.
  do 8 (erewrite loop_int8_step;
        [ | reflexivity | apply in_bit_run | vm_compute; reflexivity ];
        cbv zeta).
  rewrite loop_int8_exit by reflexivity.
  rewrite !after_reads_after_reads.
  cbn [after_reads trace sampled reads mem Nat.add].
  rewrite assemble_msb_first.
  reflexivity.
Qed.

Lemma load_run (n : nat) (b : Z) (w : world) :
  mem w !! n = Some b -> load (Z.of_nat n) w = Done b w.
Proof.
  intros Hb. unfold load.
  destruct (Z.ltb_spec (Z.of_nat n) 0) as [H|_]; [lia|].
  now rewrite Nat2Z.id, Hb.
Qed.

Lemma store_run (n : nat) (v : Z) (w : world) :
  (n < length (mem w))%nat ->
  store (Z.of_nat n) v w
  = Done tt (World (trace w) (sampled w) (reads w) (<[n := v]> (mem w))).
Proof.
  intros Hn. unfold store.
  destruct (Z.ltb_spec (Z.of_nat n) 0) as [H|_]; [lia|].
  rewrite Nat2Z.id.
  destruct (Nat.ltb_spec n (length (mem w))) as [_|H]; [reflexivity|lia].
Qed.

Lemma send_loop_run (self : SanyoCCB) (fuel : nat) (n : nat) :
  forall (loop_fuel : nat) (w : world),
    (8 < fuel)%nat -> (n < loop_fuel)%nat -> (n <= 128)%nat ->
    (n <= length (mem w))%nat ->
    loop_int8 loop_fuel (fun i => i >=? 0) (fun i => i - 1)
              (fun i _ => b <- load i ;; writeByte self fuel b)
              (Z.of_nat n - 1) tt w
    = Done tt (emit (tx_events self (rev (take n (mem w)))) w).
Proof.
  induction n as [|n IH]; intros loop_fuel w Hf Hl Hn Hm.
  - destruct loop_fuel as [|lf]; [lia|].
    rewrite loop_int8_exit by reflexivity.
    now rewrite emit_nil.
  - destruct loop_fuel as [|lf]; [lia|].
    destruct (lookup_lt_is_Some_2 (mem w) n) as [b Hb]; [lia|].
    rewrite (take_S_r _ _ _ Hb), rev_app_distr.
    rewrite (loop_int8_step _ _ _ _ _ (Z.of_nat n - 1) tt tt w
               (emit (writeByte_events self b) w)).
    + rewrite IH by (simpl; lia).
      rewrite emit_emit. reflexivity.
    + rewrite Z.geb_leb. apply Z.leb_le. lia.
    + unfold bind.
      replace (Z.of_nat (S n) - 1) with (Z.of_nat n) by lia.
      rewrite (load_run _ _ _ Hb). now apply writeByte_run.
    + rewrite to_int8_id by (unfold in_int8; lia). lia.
Qed.

Lemma store_over (k : nat) (b : Z) (m' : nat) (l bs : list Z) :
  (k < length l)%nat ->
  take (S k) (<[k := b]> l) ++ bs ++ drop (S k + m') (<[k := b]> l)
  = take k l ++ (b :: bs) ++ drop (k + S m') l.
Proof.
  intros Hk.
  assert (Hlen : length (take k l ++ [b]) = S k).
  { rewrite length_app, length_take_le by lia. simpl; lia. }
  assert (E : <[k := b]> l = (take k l ++ [b]) ++ drop (S k) l).
  { rewrite <- app_assoc. simpl. now apply insert_take_drop. }
  rewrite E.
  rewrite take_app_length' by (symmetry; exact Hlen).
  rewrite (drop_app_add' _ _ (S k)) by (symmetry; exact Hlen).
  rewrite drop_drop.
  rewrite <- app_assoc. simpl.
  now replace (S (k + m'))%nat with (k + S m')%nat by lia.
Qed.

Lemma receive_loop_run (self : SanyoCCB) (fuel : nat) (dataLength : Z) (m : nat) :
  forall (loop_fuel k : nat) (w : world),
    (8 < fuel)%nat -> (m < loop_fuel)%nat -> dataLength <= 127 ->
    m = Z.to_nat (dataLength - Z.of_nat k) ->
    (k + m <= length (mem w))%nat ->
    loop_int8 loop_fuel (fun i => i <? dataLength) (fun i => i + 1)
              (fun i _ => b <- readByte self fuel ;; store i b)
              (Z.of_nat k) tt w
    = Done tt
        (World (trace w ++ rx_events self (sampled w) (reads w) m)
               (sampled w)
               (8 * m + reads w)
               (take k (mem w)
                  ++ rx_bytes (sampled w) (_di_pin self) (reads w) m
                  ++ drop (k + m) (mem w))).
Proof.
  induction m as [|m IH]; intros loop_fuel k w Hf Hl Hd Hm Hk.
  - destruct loop_fuel as [|lf]; [lia|].
    rewrite loop_int8_exit by (apply Z.ltb_ge; lia).
    cbn [rx_events rx_bytes app].
    rewrite app_nil_r, Nat.add_0_r, take_drop.
    now destruct w.
  - destruct loop_fuel as [|lf]; [lia|].
    set (b := byte_msb_first (upcoming (sampled w) (_di_pin self) (reads w) 8)).
    set (evs := readByte_events self (upcoming (sampled w) (_di_pin self) (reads w) 8)).
    rewrite (loop_int8_step _ _ _ _ _ (Z.of_nat (S k)) tt tt w
               (World (trace w ++ evs) (sampled w) (8 + reads w)
                      (<[k := b]> (mem w)))).
    + rewrite IH; cbn [mem trace sampled reads];
        try rewrite length_insert; try lia.
      cbn [rx_events rx_bytes]. fold b evs.
      rewrite store_over by lia.
      rewrite <- app_assoc.
      now replace (8 * m + (8 + reads w))%nat with (8 * S m + reads w)%nat by lia.
    + apply Z.ltb_lt. lia.
    + unfold bind. rewrite readByte_run by assumption. cbv zeta.
      fold b evs. rewrite store_run by (cbn [after_reads mem]; lia).
      reflexivity.
    + rewrite to_int8_id by (unfold in_int8; lia). lia.
Qed.

Lemma send_count_le (dataLength : Z) : (send_count dataLength <= 128)%nat.
Proof.
  unfold send_count.
  pose proof (to_int8_range (dataLength - 1)) as H. unfold in_int8 in H. lia.
Qed.

Lemma bind_Done {A B} (m : M A) (k : A -> M B) (w w' : world) (a : A) :
  m w = Done a w' -> bind m k w = k a w'.
Proof. intros H. unfold bind. now rewrite H. Qed.

(** The SEND loop of [ccb], from its initialisation on. *)
Lemma send_for_run (self : SanyoCCB) (fuel : nat) (dataLength : Z) (w : world) :
  (128 < fuel)%nat ->
  (send_count dataLength <= length (mem w))%nat ->
  for_int8 fuel (dataLength - 1) (fun i => i >=? 0) (fun i => i - 1)
           (fun i _ => b <- load i ;; writeByte self fuel b) tt w
  = Done tt (emit (tx_events self (rev (take (send_count dataLength) (mem w)))) w).
Proof.
  intros Hf Hm.
  pose proof (send_count_le dataLength) as Hc.
  unfold for_int8.
  destruct (Z_lt_le_dec (to_int8 (dataLength - 1)) 0) as [Hneg|Hpos].
  - destruct fuel as [|fuel]; [lia|].
    rewrite loop_int8_exit by (rewrite Z.geb_leb; apply Z.leb_gt; lia).
    replace (send_count dataLength) with O by (unfold send_count; lia).
    now rewrite emit_nil.
  - replace (to_int8 (dataLength - 1))
      with (Z.of_nat (send_count dataLength) - 1) by (unfold send_count; lia).
    apply send_loop_run; lia.
Qed.

(** The RECEIVE loop of [ccb], from its initialisation on. *)
Lemma receive_for_run (self : SanyoCCB) (fuel : nat) (dataLength : Z) (w : world) :
  (128 < fuel)%nat ->
  dataLength <= 127 ->
  (receive_count dataLength <= length (mem w))%nat ->
  let n := receive_count dataLength in
  for_int8 fuel 0 (fun i => i <? dataLength) (fun i => i + 1)
           (fun i _ => b <- readByte self fuel ;; store i b) tt w
  = Done tt
      (World (trace w ++ rx_events self (sampled w) (reads w) n)
             (sampled w)
             (8 * n + reads w)
             (rx_bytes (sampled w) (_di_pin self) (reads w) n ++ drop n (mem w))).
Proof.
  intros Hf Hd Hm n. subst n. unfold for_int8, receive_count in *.
  change (to_int8 0) with (Z.of_nat 0).
  rewrite (receive_loop_run self fuel dataLength (Z.to_nat dataLength)) by lia.
  reflexivity.
Qed.

Lemma write_run (self : SanyoCCB) (fuel : nat) (address dataLength : Z) (w : world) :
  (128 < fuel)%nat ->
  (send_count dataLength <= length (mem w))%nat ->
  write self fuel address dataLength w
  = Done tt (emit (address_events self address
                     ++ enter_events self
                     ++ send_events self (rev (take (send_count dataLength) (mem w)))
                     ++ exit_events self) w).
Proof.
  intros Hf Hm.
  unfold write, ccb.
  change (_CCB_SEND =? _CCB_SEND) with true. cbv iota.
  erewrite bind_Done by (apply writeByte_run; lia).
  do 3 (erewrite bind_Done by reflexivity).
  erewrite bind_Done.
  2:{ erewrite bind_Done by (apply send_for_run; [lia | exact Hm]).
      reflexivity. }
  erewrite bind_Done by reflexivity.
  unfold delayMicroseconds.
  rewrite !emit_emit. unfold address_events, enter_events, send_events, exit_events.
  repeat rewrite <- app_assoc. reflexivity.
Qed.

Lemma read_run (self : SanyoCCB) (fuel : nat) (address dataLength : Z) (w : world) :
  (128 < fuel)%nat ->
  dataLength <= 127 ->
  (receive_count dataLength <= length (mem w))%nat ->
  let n := receive_count dataLength in
  read self fuel address dataLength w
  = Done tt
      (World (trace w ++ address_events self address
                      ++ enter_events self
                      ++ rx_events self (sampled w) (reads w) n
                      ++ exit_events self)
             (sampled w)
             (8 * n + reads w)
             (rx_bytes (sampled w) (_di_pin self) (reads w) n ++ drop n (mem w))).
Proof.
  intros Hf Hd Hm n. subst n.
  unfold read, ccb.
  change (_CCB_RECEIVE =? _CCB_SEND) with false.
  change (_CCB_RECEIVE =? _CCB_RECEIVE) with true. cbv iota.
  erewrite bind_Done by (apply writeByte_run; lia).
  do 3 (erewrite bind_Done by reflexivity).
  erewrite bind_Done by (apply receive_for_run; [lia | exact Hd | exact Hm]).
  erewrite bind_Done by reflexivity.
  unfold delayMicroseconds, emit. cbn [trace sampled reads mem].
  unfold address_events, enter_events, exit_events.
  repeat rewrite <- app_assoc. reflexivity.
Qed.

(** ** Facts about bytes *)

(** A property checked on each of the 256 byte values holds of every byte. *)
Lemma all_bytes (P : Z -> bool) :
  forallb P (map Z.of_nat (seq 0 256)) = true ->
  forall a, 0 <= a <= 255 -> P a = true.
Proof.
  intros H a Ha.
  rewrite forallb_forall in H. apply H.
  apply in_map_iff. exists (Z.to_nat a). split; [lia|].
  apply in_seq. lia.
Qed.

Lemma framed_address_spec (a : Z) :
  0 <= a <= 255 ->
  framed_address a = Z.lor (Z.shiftr a 4) (Z.land (Z.shiftl a 4) 255).
Proof.
  intros Ha. apply Z.eqb_eq.
  apply (all_bytes (fun a => framed_address a
                             =? Z.lor (Z.shiftr a 4) (Z.land (Z.shiftl a 4) 255)));
    [vm_compute; reflexivity | exact Ha].
Qed.

Lemma framed_address_involutive (a : Z) :
  0 <= a <= 255 -> framed_address (framed_address a) = a.
Proof.
  intros Ha. apply Z.eqb_eq.
  apply (all_bytes (fun a => framed_address (framed_address a) =? a));
    [vm_compute; reflexivity | exact Ha].
Qed.

Lemma byte_msb_first_bits (l7 l6 l5 l4 l3 l2 l1 l0 : level) :
  map (Z.testbit (byte_msb_first [l7; l6; l5; l4; l3; l2; l1; l0]))
      [7; 6; 5; 4; 3; 2; 1; 0]
  = map is_high [l7; l6; l5; l4; l3; l2; l1; l0].
Proof.
  destruct l7, l6, l5, l4, l3, l2, l1, l0; vm_compute; reflexivity.
Qed.

Lemma byte_msb_first_range (l7 l6 l5 l4 l3 l2 l1 l0 : level) :
  0 <= byte_msb_first [l7; l6; l5; l4; l3; l2; l1; l0] <= 255.
Proof.
  destruct l7, l6, l5, l4, l3, l2, l1, l0; vm_compute; split; discriminate.
Qed.

(** ** Facts about line levels *)

Lemma line_level_app (pin : Z) (cur : level) (e1 e2 : list event) :
  line_level pin cur (e1 ++ e2) = line_level pin (line_level pin cur e1) e2.
Proof. unfold line_level. apply fold_left_app. Qed.

Lemma edges_app (edge : level -> level -> bool) (pin : Z) (e1 e2 : list event) :
  forall cur,
    edges edge pin cur (e1 ++ e2)
    = (edges edge pin cur e1 + edges edge pin (line_level pin cur e1) e2)%nat.
Proof.
  induction e1 as [|e e1 IH]; intros cur; simpl; [reflexivity|].
  rewrite IH. lia.
Qed.

(** A clocked output bit, seen from the CLOCK line: one rise, one fall,
    and the line is back low. *)
Lemma out_bit_clock (self : SanyoCCB) (v : level) :
  _do_pin self <> _cl_pin self ->
  edges is_rise (_cl_pin self) Low (out_bit_events self v) = 1%nat
  /\ edges is_fall (_cl_pin self) Low (out_bit_events self v) = 1%nat
  /\ line_level (_cl_pin self) Low (out_bit_events self v) = Low.
Proof.
  intros Hne. unfold out_bit_events, line_level. simpl.
  rewrite Z.eqb_refl.
  destruct (Z.eqb_spec (_do_pin self) (_cl_pin self)) as [E|_]; [contradiction|].
  simpl. auto.
Qed.

Lemma out_bits_clock (self : SanyoCCB) (vs : list level) :
  _do_pin self <> _cl_pin self ->
  edges is_rise (_cl_pin self) Low (flat_map (out_bit_events self) vs) = length vs
  /\ edges is_fall (_cl_pin self) Low (flat_map (out_bit_events self) vs) = length vs
  /\ line_level (_cl_pin self) Low (flat_map (out_bit_events self) vs) = Low.
Proof.
  intros Hne. induction vs as [|v vs (IH1 & IH2 & IH3)]; [now auto|].
  destruct (out_bit_clock self v Hne) as (H1 & H2 & H3).
  cbn [flat_map length].
  rewrite !edges_app, line_level_app, H1, H2, H3, IH1, IH2, IH3.
  auto.
Qed.

Lemma send_count_in_range (dataLength : Z) :
  0 <= dataLength <= 127 -> send_count dataLength = Z.to_nat dataLength.
Proof.
  intros H. unfold send_count.
  rewrite to_int8_id by (unfold in_int8; lia). f_equal. lia.
Qed.

Lemma rx_events_from (self : SanyoCCB) (s : Z -> nat -> level) (r n : nat) :
  forall k,
    rx_events self s (r + 8 * k) n
    = flat_map (fun i => readByte_events self (upcoming s (_di_pin self) (r + 8 * i) 8))
               (seq k n).
Proof.
  induction n as [|n IH]; intros k; [reflexivity|].
  cbn [rx_events seq flat_map].
  replace (8 + (r + 8 * k))%nat with (r + 8 * S k)%nat by lia.
  now rewrite IH.
Qed.

Lemma rx_bytes_from (s : Z -> nat -> level) (pin : Z) (r n : nat) :
  forall k,
    rx_bytes s pin (r + 8 * k) n
    = map (fun i => byte_msb_first (upcoming s pin (r + 8 * i) 8)) (seq k n).
Proof.
  induction n as [|n IH]; intros k; [reflexivity|].
  cbn [rx_bytes seq map].
  replace (8 + (r + 8 * k))%nat with (r + 8 * S k)%nat by lia.
  now rewrite IH.
Qed.

Lemma rx_events_flat_map (self : SanyoCCB) (s : Z -> nat -> level) (r n : nat) :
  rx_events self s r n
  = flat_map (fun i => readByte_events self (upcoming s (_di_pin self) (r + 8 * i) 8))
             (seq 0 n).
Proof.
  rewrite <- rx_events_from. f_equal. lia.
Qed.

Lemma rx_bytes_map (s : Z -> nat -> level) (pin : Z) (r n : nat) :
  rx_bytes s pin r n
  = map (fun i => byte_msb_first (upcoming s pin (r + 8 * i) 8)) (seq 0 n).
Proof.
  rewrite <- rx_bytes_from. f_equal. lia.
Qed.

(** ** Lines a phase leaves alone *)

Lemma quiet_app (pin : Z) (e1 e2 : list event) :
  quiet pin (e1 ++ e2) = quiet pin e1 && quiet pin e2.
Proof. apply forallb_app. Qed.

Lemma quiet_take (pin : Z) (evs : list event) (k : nat) :
  quiet pin evs = true -> quiet pin (take k evs) = true.
Proof.
  intros H. rewrite <- (take_drop k evs), quiet_app in H.
  now apply andb_true_iff in H.
Qed.

Lemma line_level_quiet (pin : Z) (evs : list event) :
  forall cur, quiet pin evs = true -> line_level pin cur evs = cur.
Proof.
  induction evs as [|e evs IH]; intros cur H; [reflexivity|].
  cbn [quiet forallb] in H. apply andb_true_iff in H as (He & Hq).
  change (line_level pin cur (e :: evs)) with (line_level pin (drive pin cur e) evs).
  rewrite IH by exact Hq.
  destruct e; try reflexivity.
  cbn [writes_to drive] in *. now destruct (pin0 =? pin).
Qed.

Lemma quiet_flat_map {A} (pin : Z) (f : A -> list event) (l : list A) :
  (forall x, quiet pin (f x) = true) -> quiet pin (flat_map f l) = true.
Proof.
  intros H. induction l as [|x l IH]; [reflexivity|].
  cbn [flat_map]. now rewrite quiet_app, H, IH.
Qed.

Lemma neq_eqb_false (a b : Z) : a <> b -> (b =? a) = false.
Proof. intros H. apply Z.eqb_neq. congruence. Qed.

Lemma quiet_out_bit (self : SanyoCCB) (pin : Z) (v : level) :
  pin <> _do_pin self -> pin <> _cl_pin self ->
  quiet pin (out_bit_events self v) = true.
Proof.
  intros Hd Hc. unfold quiet, out_bit_events. cbn [forallb writes_to].
  now rewrite (neq_eqb_false _ _ Hd), (neq_eqb_false _ _ Hc).
Qed.

Lemma quiet_in_bit (self : SanyoCCB) (pin : Z) (v : level) :
  pin <> _cl_pin self -> quiet pin (in_bit_events self v) = true.
Proof.
  intros Hc. unfold quiet, in_bit_events. cbn [forallb writes_to].
  now rewrite (neq_eqb_false _ _ Hc).
Qed.

Lemma quiet_writeByte (self : SanyoCCB) (pin b : Z) :
  pin <> _do_pin self -> pin <> _cl_pin self ->
  quiet pin (writeByte_events self b) = true.
Proof.
  intros Hd Hc. apply quiet_flat_map. intros i. now apply quiet_out_bit.
Qed.

Lemma quiet_send (self : SanyoCCB) (pin : Z) (bs : list Z) :
  pin <> _do_pin self -> pin <> _cl_pin self ->
  quiet pin (send_events self bs) = true.
Proof.
  intros Hd Hc. unfold send_events, tx_events.
  rewrite quiet_app, quiet_flat_map by (intros b; now apply quiet_writeByte).
  unfold quiet. cbn [forallb writes_to]. now rewrite (neq_eqb_false _ _ Hd).
Qed.

Lemma quiet_rx (self : SanyoCCB) (pin : Z) (s : Z -> nat -> level) (r n : nat) :
  pin <> _cl_pin self -> quiet pin (rx_events self s r n) = true.
Proof.
  intros Hc. rewrite rx_events_flat_map.
  apply quiet_flat_map. intros i.
  apply quiet_flat_map. intros v. now apply quiet_in_bit.
Qed.

(** ** Where CLOCK rests *)

Lemma out_bit_clock_low (self : SanyoCCB) (v cur : level) :
  line_level (_cl_pin self) cur (out_bit_events self v) = Low.
Proof.
  unfold line_level, out_bit_events. cbn [fold_left drive].
  now rewrite Z.eqb_refl.
Qed.

Lemma in_bit_clock_low (self : SanyoCCB) (v cur : level) :
  line_level (_cl_pin self) cur (in_bit_events self v) = Low.
Proof.
  unfold line_level, in_bit_events. cbn [fold_left drive].
  now rewrite Z.eqb_refl.
Qed.

(** A run of blocks that each leave the line low keeps a low line low. *)
Lemma flat_map_rests_low {A} (pin : Z) (f : A -> list event) (l : list A) :
  (forall x cur, line_level pin cur (f x) = Low) ->
  line_level pin Low (flat_map f l) = Low.
Proof.
  intros H. induction l as [|x l IH]; [reflexivity|].
  cbn [flat_map]. now rewrite line_level_app, H.
Qed.

Lemma writeByte_clock_low (self : SanyoCCB) (b : Z) (cur : level) :
  line_level (_cl_pin self) cur (writeByte_events self b) = Low.
Proof.
  unfold writeByte_events. cbn [flat_map].
  rewrite line_level_app, out_bit_clock_low.
  apply (flat_map_rests_low _
           (fun i => out_bit_events self (level_of_bit (Z.testbit b i)))
           [1; 2; 3; 4; 5; 6; 7]).
  intros i c. apply out_bit_clock_low.
Qed.

Lemma send_clock_low (self : SanyoCCB) (bs : list Z) :
  line_level (_cl_pin self) Low (send_events self bs) = Low.
Proof.
  unfold send_events, tx_events.
  rewrite line_level_app, flat_map_rests_low
    by (intros b c; apply writeByte_clock_low).
  unfold line_level. cbn [fold_left drive].
  now destruct (_do_pin self =? _cl_pin self).
Qed.

Lemma rx_clock_low (self : SanyoCCB) (s : Z -> nat -> level) (r n : nat) :
  line_level (_cl_pin self) Low (rx_events self s r n) = Low.
Proof.
  rewrite rx_events_flat_map.
  apply flat_map_rests_low. intros i cur.
  unfold upcoming, readByte_events. cbn [seq map flat_map].
  rewrite line_level_app, in_bit_clock_low.
  apply (flat_map_rests_low _ (in_bit_events self)
           (map (s (_di_pin self)) (seq (S (r + 8 * i)) 7))).
  intros v c. apply in_bit_clock_low.
Qed.

(** ENABLE and CLOCK over a whole transfer whose payload part leaves
    ENABLE alone and lets CLOCK rest low. *)
Lemma transfer_levels (self : SanyoCCB) (address : Z) (payload : list event) :
  _ce_pin self <> _do_pin self ->
  _ce_pin self <> _cl_pin self ->
  quiet (_ce_pin self) payload = true ->
  line_level (_cl_pin self) Low payload = Low ->
  (forall k, line_level (_ce_pin self) Low (take k (address_events self address)) = Low)
  /\ (forall k, line_level (_ce_pin self) Low
                  (address_events self address ++ enter_events self ++ take k payload)
                = High)
  /\ line_level (_ce_pin self) Low
       (address_events self address ++ enter_events self ++ payload ++ exit_events self)
     = Low
  /\ (forall cur, line_level (_cl_pin self) cur
                    (address_events self address ++ enter_events self
                       ++ payload ++ exit_events self)
                  = Low).
Proof.
  intros Hd Hc Hq Hl.
  assert (Ha : quiet (_ce_pin self) (address_events self address) = true)
    by now apply quiet_writeByte.
  assert (He : forall cur, line_level (_ce_pin self) cur (enter_events self) = High).
  { intros cur. unfold line_level, enter_events. cbn [fold_left drive].
    now rewrite Z.eqb_refl. }
  assert (Hx : forall cur, line_level (_ce_pin self) cur (exit_events self) = Low).
  { intros cur. unfold line_level, exit_events. cbn [fold_left drive].
    now rewrite Z.eqb_refl. }
  assert (Hce : forall cur, line_level (_cl_pin self) cur (enter_events self) = Low).
  { intros cur. unfold line_level, enter_events. cbn [fold_left drive].
    now rewrite Z.eqb_refl, (neq_eqb_false _ _ (not_eq_sym Hc)). }
  assert (Hcx : line_level (_cl_pin self) Low (exit_events self) = Low).
  { unfold line_level, exit_events. cbn [fold_left drive].
    now rewrite (neq_eqb_false _ _ (not_eq_sym Hc)). }
  repeat split.
  - intros k. apply line_level_quiet. now apply quiet_take.
  - intros k. rewrite !line_level_app, He.
    apply line_level_quiet. now apply quiet_take.
  - now rewrite !line_level_app, Hx.
  - intros cur. now rewrite !line_level_app, Hce, Hl, Hcx.
Qed.

(** ** The claims *)

(** C1. For every address byte [a] in [0,255], the framed address byte
    sent at the start of a transfer, write or read, is
    [(a >> 4) | ((a << 4) & 0xFF)]: the events of the transfer start with
    the [writeByte] events of that value.  Swapping the nibbles twice gives
    the original byte back. *)
Theorem C1_framed_address_nibble_swap
        (self : SanyoCCB) (fuel : nat) (a dataLength : Z) (w : world) :
  0 <= a <= 255 ->
  (128 < fuel)%nat ->
  0 <= dataLength <= 127 ->
  (Z.to_nat dataLength <= length (mem w))%nat ->
  framed_address a = Z.lor (Z.shiftr a 4) (Z.land (Z.shiftl a 4) 255)
  /\ framed_address (framed_address a) = a
  /\ (exists w1 rest,
        write self fuel a dataLength w = Done tt w1
        /\ trace w1 = trace w
             ++ writeByte_events self
                  (Z.lor (Z.shiftr a 4) (Z.land (Z.shiftl a 4) 255))
             ++ rest)
  /\ (exists w1 rest,
        read self fuel a dataLength w = Done tt w1
        /\ trace w1 = trace w
             ++ writeByte_events self
                  (Z.lor (Z.shiftr a 4) (Z.land (Z.shiftl a 4) 255))
             ++ rest).
Proof.
  intros Ha Hf Hd Hm.
  split; [now apply framed_address_spec|].
  split; [now apply framed_address_involutive|].
  rewrite <- (framed_address_spec a Ha).
  split.
  - eexists; eexists. split.
    + apply write_run; [exact Hf|]. rewrite send_count_in_range; assumption.
    + reflexivity.
  - eexists; eexists. split.
    + apply read_run; [exact Hf | lia | exact Hm].
    + reflexivity.
Qed.

Lemma C1_framed_address_nibble_swap_witness :
  0 <= 5 <= 255
  /\ (128 < 129)%nat
  /\ 0 <= 2 <= 127
  /\ (Z.to_nat 2 <= length (mem (demo_world [170; 187]%Z)))%nat
  /\ framed_address 5 = Z.lor (Z.shiftr 5 4) (Z.land (Z.shiftl 5 4) 255)
  /\ framed_address (framed_address 5) = 5.
Proof.
  assert (Ha : 0 <= 5 <= 255) by lia.
  assert (Hf : (128 < 129)%nat) by lia.
  assert (Hd : 0 <= 2 <= 127) by lia.
  assert (Hm : (Z.to_nat 2 <= length (mem (demo_world [170; 187]%Z)))%nat)
    by (vm_compute; lia).
  destruct (C1_framed_address_nibble_swap demo_bus 129 5 2 _ Ha Hf Hd Hm)
    as (H1 & H2 & _).
  repeat split; try assumption; lia.
Defined.

(** C2. For every byte value [b], [writeByte(b)] puts the eight bits of
    [b] on OUT least significant bit first: for [i] from 0 up to 7 it
    drives OUT to bit [i] of [b], raises CLOCK, holds one delay unit,
    lowers CLOCK and holds one delay unit.  With OUT and CLOCK on different
    pins and CLOCK resting low, that is one rising and one falling CLOCK
    edge per bit, eight of each per byte. *)
Theorem C2_writeByte_lsb_first
        (self : SanyoCCB) (fuel : nat) (b : Z) (w : world) :
  (8 < fuel)%nat ->
  writeByte self fuel b w
  = Done tt
      (emit (flat_map
               (fun i =>
                  [ DigitalWrite (_do_pin self) (level_of_bit (Z.testbit b i));
                    DigitalWrite (_cl_pin self) High;
                    DelayMicroseconds CCB_DELAY;
                    DigitalWrite (_cl_pin self) Low;
                    DelayMicroseconds CCB_DELAY ])
               [0; 1; 2; 3; 4; 5; 6; 7]) w)
  /\ (_do_pin self <> _cl_pin self ->
      (forall v,
          edges is_rise (_cl_pin self) Low (out_bit_events self v) = 1%nat
          /\ edges is_fall (_cl_pin self) Low (out_bit_events self v) = 1%nat
          /\ line_level (_cl_pin self) Low (out_bit_events self v) = Low)
      /\ edges is_rise (_cl_pin self) Low (writeByte_events self b) = 8%nat
      /\ edges is_fall (_cl_pin self) Low (writeByte_events self b) = 8%nat).
Proof.
  intros Hf. split; [now apply writeByte_run|].
  intros Hne. split; [intros v; now apply out_bit_clock|].
  destruct (out_bits_clock self
              (map (fun i => level_of_bit (Z.testbit b i)) [0; 1; 2; 3; 4; 5; 6; 7])
              Hne) as (H1 & H2 & _).
  split; [exact H1 | exact H2].
Qed.

Lemma C2_writeByte_lsb_first_witness :
  (8 < 9)%nat
  /\ _do_pin demo_bus <> _cl_pin demo_bus
  /\ writeByte demo_bus 9 165 (demo_world [])
     = Done tt (emit (writeByte_events demo_bus 165) (demo_world []))
  /\ edges is_rise (_cl_pin demo_bus) Low (writeByte_events demo_bus 165) = 8%nat.
Proof.
  assert (Hf : (8 < 9)%nat) by lia.
  assert (Hne : _do_pin demo_bus <> _cl_pin demo_bus) by (vm_compute; discriminate).
  destruct (C2_writeByte_lsb_first demo_bus 9 165 (demo_world []) Hf) as (H1 & H2).
  destruct (H2 Hne) as (_ & H3 & _).
  repeat split; assumption.
Defined.

(** C3. Whatever eight levels the IN line presents, [readByte()] builds
    its result most significant bit first: for [i] from 7 down to 0 it
    raises CLOCK, holds one delay unit, samples IN into bit [i], lowers
    CLOCK and holds one delay unit.  The level sampled on the first clock
    pulse is bit 7 of the returned byte, the last one bit 0. *)
Theorem C3_readByte_msb_first
        (self : SanyoCCB) (fuel : nat) (w : world)
        (l7 l6 l5 l4 l3 l2 l1 l0 : level) :
  (8 < fuel)%nat ->
  upcoming (sampled w) (_di_pin self) (reads w) 8
    = [l7; l6; l5; l4; l3; l2; l1; l0] ->
  exists (b : Z) (w' : world),
    readByte self fuel w = Done b w'
    /\ trace w' = trace w
         ++ flat_map
              (fun v =>
                 [ DigitalWrite (_cl_pin self) High;
                   DelayMicroseconds CCB_DELAY;
                   DigitalRead (_di_pin self) v;
                   DigitalWrite (_cl_pin self) Low;
                   DelayMicroseconds CCB_DELAY ])
              [l7; l6; l5; l4; l3; l2; l1; l0]
    /\ reads w' = (8 + reads w)%nat
    /\ mem w' = mem w
    /\ 0 <= b <= 255
    /\ map (Z.testbit b) [7; 6; 5; 4; 3; 2; 1; 0]
       = map is_high [l7; l6; l5; l4; l3; l2; l1; l0]
    /\ b = 128 * Z_of_level l7 + 64 * Z_of_level l6 + 32 * Z_of_level l5
           + 16 * Z_of_level l4 + 8 * Z_of_level l3 + 4 * Z_of_level l2
           + 2 * Z_of_level l1 + Z_of_level l0.
Proof.
  intros Hf Hs.
  exists (byte_msb_first [l7; l6; l5; l4; l3; l2; l1; l0]).
  eexists. split.
  - rewrite readByte_run by exact Hf. cbv zeta. rewrite Hs. reflexivity.
  - cbn [after_reads trace reads mem].
    repeat split; try reflexivity.
    + apply byte_msb_first_range.
    + apply byte_msb_first_range.
    + apply byte_msb_first_bits.
    + unfold byte_msb_first. cbn [fold_left]. lia.
Qed.

Lemma C3_readByte_msb_first_witness :
  (8 < 9)%nat
  /\ upcoming (sampled (demo_world [])) (_di_pin demo_bus) (reads (demo_world [])) 8
     = [High; Low; High; Low; High; Low; High; Low]
  /\ exists w', readByte demo_bus 9 (demo_world []) = Done 170 w'.
Proof.
  assert (Hf : (8 < 9)%nat) by lia.
  assert (Hs : upcoming (sampled (demo_world [])) (_di_pin demo_bus)
                        (reads (demo_world [])) 8
               = [High; Low; High; Low; High; Low; High; Low])
    by reflexivity.
  destruct (C3_readByte_msb_first demo_bus 9 (demo_world []) _ _ _ _ _ _ _ _ Hf Hs)
    as (b & w' & Hrun & _ & _ & _ & _ & _ & Hb).
  split; [exact Hf|]. split; [exact Hs|].
  exists w'. rewrite Hrun. f_equal. exact Hb.
Defined.

(** C4. A write whose buffer starts with the [n <= 127] payload bytes
    [p0, ..., pn-1] puts, after the address byte and the entry into the
    data phase, the bytes [pn-1, ..., p0] on the line, in that order, and
    then drives OUT low before it leaves the data phase. *)
Theorem C4_write_sends_payload_reversed
        (self : SanyoCCB) (fuel : nat) (address : Z)
        (payload rest : list Z) (w : world) :
  (128 < fuel)%nat ->
  (length payload <= 127)%nat ->
  mem w = payload ++ rest ->
  write self fuel address (Z.of_nat (length payload)) w
  = Done tt
      (emit (address_events self address
               ++ enter_events self
               ++ flat_map (writeByte_events self) (rev payload)
               ++ [DigitalWrite (_do_pin self) Low]
               ++ exit_events self) w).
Proof.
  intros Hf Hn Hm.
  assert (Hc : send_count (Z.of_nat (length payload)) = length payload).
  { rewrite send_count_in_range by lia. apply Nat2Z.id. }
  rewrite write_run; [| exact Hf | rewrite Hc, Hm, length_app; lia].
  rewrite Hc, Hm, take_app_length.
  unfold send_events, tx_events. now rewrite <- app_assoc.
Qed.

Lemma C4_write_sends_payload_reversed_witness :
  (128 < 129)%nat
  /\ (length [170; 187]%Z <= 127)%nat
  /\ mem (demo_world [170; 187]) = [170; 187] ++ []
  /\ write demo_bus 129 5 2 (demo_world [170; 187])
     = Done tt
         (emit (address_events demo_bus 5
                  ++ enter_events demo_bus
                  ++ (writeByte_events demo_bus 187 ++ writeByte_events demo_bus 170)
                  ++ [DigitalWrite (_do_pin demo_bus) Low]
                  ++ exit_events demo_bus) (demo_world [170; 187])).
Proof.
  assert (Hf : (128 < 129)%nat) by lia.
  assert (Hn : (length [170; 187]%Z <= 127)%nat) by (simpl; lia).
  assert (Hm : mem (demo_world [170; 187]) = [170; 187] ++ []) by reflexivity.
  pose proof (C4_write_sends_payload_reversed demo_bus 129 5 [170; 187] []
                (demo_world [170; 187]) Hf Hn Hm) as H.
  split; [exact Hf|]. split; [exact Hn|]. split; [exact Hm|].
  cbn [length Z.of_nat Pos.of_succ_nat Pos.succ rev app flat_map] in H.
  rewrite app_nil_r in H. exact H.
Defined.

(** C5. A read of length [n] in [0,127] into a buffer of at least [n]
    bytes makes exactly [n] [readByte] calls, one after the other, and the
    byte returned by the [i]-th of them (counting from 0) is stored in
    [buffer[i]]; the buffer beyond index [n-1] is left as it was. *)
Theorem C5_read_fills_buffer_forward
        (self : SanyoCCB) (fuel : nat) (address dataLength : Z) (w : world) :
  (128 < fuel)%nat ->
  0 <= dataLength <= 127 ->
  (Z.to_nat dataLength <= length (mem w))%nat ->
  let n := Z.to_nat dataLength in
  let samples i := upcoming (sampled w) (_di_pin self) (reads w + 8 * i) 8 in
  exists w',
    read self fuel address dataLength w = Done tt w'
    /\ trace w' = trace w
         ++ address_events self address
         ++ enter_events self
         ++ flat_map (fun i => readByte_events self (samples i)) (seq 0 n)
         ++ exit_events self
    /\ reads w' = (reads w + 8 * n)%nat
    /\ mem w' = map (fun i => byte_msb_first (samples i)) (seq 0 n)
                  ++ drop n (mem w)
    /\ length (mem w') = length (mem w)
    /\ (forall i, (i < n)%nat -> mem w' !! i = Some (byte_msb_first (samples i)))
    /\ (forall i, (n <= i)%nat -> mem w' !! i = mem w !! i).
Proof.
  intros Hf Hd Hm n samples.
  eexists. split; [apply read_run; [exact Hf | lia | exact Hm]|].
  cbn [trace reads mem]. unfold receive_count in *. fold n.
  rewrite rx_events_flat_map, rx_bytes_map.
  assert (Hn : n = Z.to_nat dataLength) by reflexivity.
  clearbody n. subst samples. cbv beta.
  split; [reflexivity|].
  split; [lia|].
  split; [reflexivity|].
  split; [rewrite length_app, length_drop, length_map, length_seq; lia|].
  split.
  - intros i Hi.
    rewrite lookup_app_l by (rewrite length_map, length_seq; lia).
    rewrite list_lookup_fmap, lookup_seq_lt by exact Hi.
    reflexivity.
  - intros i Hi.
    rewrite lookup_app_r by (rewrite length_map, length_seq; lia).
    rewrite lookup_drop, length_map, length_seq. f_equal. lia.
Qed.

Lemma C5_read_fills_buffer_forward_witness :
  (128 < 129)%nat
  /\ 0 <= 2 <= 127
  /\ (Z.to_nat 2 <= length (mem (demo_world [1; 2; 3]%Z)))%nat
  /\ exists w', read demo_bus 129 5 2 (demo_world [1; 2; 3]) = Done tt w'
                /\ mem w' = [170; 170; 3].
Proof.
  assert (Hf : (128 < 129)%nat) by lia.
  assert (Hd : 0 <= 2 <= 127) by lia.
  assert (Hm : (Z.to_nat 2 <= length (mem (demo_world [1; 2; 3]%Z)))%nat)
    by (vm_compute; lia).
  destruct (C5_read_fills_buffer_forward demo_bus 129 5 2 _ Hf Hd Hm)
    as (w' & Hrun & _ & _ & Hmem & _).
  split; [exact Hf|]. split; [exact Hd|]. split; [exact Hm|].
  exists w'. split; [exact Hrun | exact Hmem].
Defined.

(** C6. In every transfer between distinct ENABLE, OUT and CLOCK pins,
    the driver writes, in this order: the address byte; CLOCK low, ENABLE
    high, one delay unit; the payload bytes; ENABLE low, one delay unit.
    Neither the address byte nor the payload touches ENABLE.  So on a bus
    that starts idle, ENABLE is low at every point of the address byte,
    high at every point of the payload, and low at the end, where CLOCK is
    low as well. *)
Theorem C6_enable_brackets_payload
        (self : SanyoCCB) (fuel : nat) (address dataLength mode : Z) (w : world) :
  (128 < fuel)%nat ->
  0 <= dataLength <= 127 ->
  (Z.to_nat dataLength <= length (mem w))%nat ->
  mode = _CCB_SEND \/ mode = _CCB_RECEIVE ->
  _ce_pin self <> _do_pin self ->
  _ce_pin self <> _cl_pin self ->
  let n := Z.to_nat dataLength in
  let payload :=
    if mode =? _CCB_SEND
    then flat_map (writeByte_events self) (rev (take n (mem w)))
           ++ [DigitalWrite (_do_pin self) Low]
    else rx_events self (sampled w) (reads w) n in
  let before := writeByte_events self (framed_address address) in
  let enter :=
    [ DigitalWrite (_cl_pin self) Low;
      DigitalWrite (_ce_pin self) High; DelayMicroseconds CCB_DELAY ] in
  let leave :=
    [ DigitalWrite (_ce_pin self) Low; DelayMicroseconds CCB_DELAY ] in
  exists w',
    ccb self fuel address dataLength mode w = Done tt w'
    /\ trace w' = trace w ++ before ++ enter ++ payload ++ leave
    /\ quiet (_ce_pin self) before = true
    /\ quiet (_ce_pin self) payload = true
    /\ (forall k, line_level (_ce_pin self) Low (take k before) = Low)
    /\ (forall k, line_level (_ce_pin self) Low (before ++ enter ++ take k payload)
                  = High)
    /\ line_level (_ce_pin self) Low (before ++ enter ++ payload ++ leave) = Low
    /\ (forall cur, line_level (_cl_pin self) cur
                      (before ++ enter ++ payload ++ leave) = Low).
Proof.
  intros Hf Hd Hm Hmode Hcd Hcc n payload before enter leave.
  assert (Hq : quiet (_ce_pin self) payload = true).
  { subst payload. destruct Hmode as [-> | ->]; cbn [Z.eqb _CCB_SEND _CCB_RECEIVE].
    - now apply (quiet_send self).
    - now apply quiet_rx. }
  assert (Hl : line_level (_cl_pin self) Low payload = Low).
  { subst payload. destruct Hmode as [-> | ->]; cbn [Z.eqb _CCB_SEND _CCB_RECEIVE].
    - apply (send_clock_low self).
    - apply rx_clock_low. }
  destruct (transfer_levels self address payload Hcd Hcc Hq Hl)
    as (L1 & L2 & L3 & L4).
  assert (Hrun : exists w', ccb self fuel address dataLength mode w = Done tt w'
                            /\ trace w' = trace w ++ before ++ enter ++ payload ++ leave).
  { subst payload. destruct Hmode as [-> | ->]; cbn [Z.eqb _CCB_SEND _CCB_RECEIVE].
    - eexists. split.
      + apply write_run; [exact Hf|]. rewrite send_count_in_range; assumption.
      + rewrite send_count_in_range by assumption. reflexivity.
    - eexists. split.
      + apply read_run; [exact Hf | lia | exact Hm].
      + reflexivity. }
  destruct Hrun as (w' & Hrun & Htr).
  exists w'. split; [exact Hrun|]. split; [exact Htr|].
  split; [now apply quiet_writeByte|]. split; [exact Hq|].
  split; [exact L1|]. split; [exact L2|]. split; [exact L3 | exact L4].
Qed.

Lemma C6_enable_brackets_payload_witness :
  (128 < 129)%nat
  /\ 0 <= 2 <= 127
  /\ (Z.to_nat 2 <= length (mem (demo_world [170; 187]%Z)))%nat
  /\ (_CCB_SEND = _CCB_SEND \/ _CCB_SEND = _CCB_RECEIVE)
  /\ _ce_pin demo_bus <> _do_pin demo_bus
  /\ _ce_pin demo_bus <> _cl_pin demo_bus
  /\ exists w',
      ccb demo_bus 129 5 2 _CCB_SEND (demo_world [170; 187]) = Done tt w'
      /\ line_level 5 Low (trace w') = Low
      /\ line_level 3 Low (trace w') = Low.
Proof.
  assert (Hf : (128 < 129)%nat) by lia.
  assert (Hd : 0 <= 2 <= 127) by lia.
  assert (Hm : (Z.to_nat 2 <= length (mem (demo_world [170; 187]%Z)))%nat)
    by (vm_compute; lia).
  assert (Hmode : _CCB_SEND = _CCB_SEND \/ _CCB_SEND = _CCB_RECEIVE)
    by (left; reflexivity).
  assert (H1 : _ce_pin demo_bus <> _do_pin demo_bus) by (vm_compute; discriminate).
  assert (H2 : _ce_pin demo_bus <> _cl_pin demo_bus) by (vm_compute; discriminate).
  destruct (C6_enable_brackets_payload demo_bus 129 5 2 _CCB_SEND
              (demo_world [170; 187]) Hf Hd Hm Hmode H1 H2)
    as (w' & Hrun & Htr & _ & _ & _ & _ & He & Hc).
  split; [exact Hf|]. split; [exact Hd|]. split; [exact Hm|].
  split; [exact Hmode|]. split; [exact H1|]. split; [exact H2|].
  exists w'. split; [exact Hrun|].
  rewrite Htr. split; [exact He | apply Hc].
Defined.

(** C7. A transfer of length 0, in either direction, still sends the
    nibble-swapped address byte and raises and lowers ENABLE, but between
    the two ENABLE writes there is no clocked byte at all: a write only
    drives OUT low there, a read does nothing.  The buffer is not touched:
    the result is the same for every buffer, the empty one included, and
    the buffer and the count of samples taken are unchanged. *)
Theorem C7_zero_length_transfer
        (self : SanyoCCB) (fuel : nat) (address : Z) (w : world) :
  (128 < fuel)%nat ->
  write self fuel address 0 w
  = Done tt
      (emit (writeByte_events self (framed_address address)
               ++ [ DigitalWrite (_cl_pin self) Low;
                    DigitalWrite (_ce_pin self) High; DelayMicroseconds CCB_DELAY ]
               ++ [ DigitalWrite (_do_pin self) Low ]
               ++ [ DigitalWrite (_ce_pin self) Low; DelayMicroseconds CCB_DELAY ])
            w)
  /\ read self fuel address 0 w
     = Done tt
         (emit (writeByte_events self (framed_address address)
                  ++ [ DigitalWrite (_cl_pin self) Low;
                       DigitalWrite (_ce_pin self) High; DelayMicroseconds CCB_DELAY ]
                  ++ [ DigitalWrite (_ce_pin self) Low; DelayMicroseconds CCB_DELAY ])
               w).
Proof.
  intros Hf.
  assert (Hs : send_count 0 = 0%nat) by reflexivity.
  assert (Hr : receive_count 0 = 0%nat) by reflexivity.
  split.
  - rewrite write_run; [| exact Hf | rewrite Hs; lia].
    rewrite Hs. reflexivity.
  - rewrite read_run; [| exact Hf | lia | rewrite Hr; lia].
    cbv zeta. rewrite Hr. reflexivity.
Qed.

Lemma C7_zero_length_transfer_witness :
  (128 < 129)%nat
  /\ write demo_bus 129 5 0 (demo_world [])
     = Done tt
         (emit (writeByte_events demo_bus 80
                  ++ [ DigitalWrite 3 Low; DigitalWrite 5 High; DelayMicroseconds 100 ]
                  ++ [ DigitalWrite 2 Low ]
                  ++ [ DigitalWrite 5 Low; DelayMicroseconds 100 ])
               (demo_world []))
  /\ read demo_bus 129 5 0 (demo_world [])
     = Done tt
         (emit (writeByte_events demo_bus 80
                  ++ [ DigitalWrite 3 Low; DigitalWrite 5 High; DelayMicroseconds 100 ]
                  ++ [ DigitalWrite 5 Low; DelayMicroseconds 100 ])
               (demo_world [])).
Proof.
  assert (Hf : (128 < 129)%nat) by lia.
  destruct (C7_zero_length_transfer demo_bus 129 5 (demo_world []) Hf) as (H1 & H2).
  split; [exact Hf|]. split; [exact H1 | exact H2].
Defined.

(** C8. At the maximum length 127 the [int8_t] counter never overflows.
    The body of the SEND loop runs at 126, 125, ..., 0 and the counter is
    finally given -1; the body of the RECEIVE loop runs at 0, 1, ..., 126
    and the counter is finally given 127.  Every value the counter is
    given is within [-128, 127] before it is narrowed, and each loop is
    the run of its body at exactly those 127 counter values.  Both
    transfers return, the write after sending exactly 127 bytes and the
    read after receiving exactly 127 bytes. *)
Theorem C8_max_length_no_counter_overflow
        (self : SanyoCCB) (fuel : nat) (address : Z) (w : world) :
  (128 < fuel)%nat ->
  (127 <= length (mem w))%nat ->
  let send_cond := fun i => i >=? 0 in
  let send_next := fun i => i - 1 in
  let receive_cond := fun i => i <? 127 in
  let receive_next := fun i => i + 1 in
  loop_indices fuel send_cond send_next (to_int8 (127 - 1))
  = map (fun k => 126 - Z.of_nat k) (seq 0 127)
  /\ counter_values fuel (127 - 1) send_cond send_next
     = map (fun k => 126 - Z.of_nat k) (seq 0 128)
  /\ Forall in_int8 (counter_values fuel (127 - 1) send_cond send_next)
  /\ loop_indices fuel receive_cond receive_next (to_int8 0)
     = map Z.of_nat (seq 0 127)
  /\ counter_values fuel 0 receive_cond receive_next
     = map Z.of_nat (seq 0 128)
  /\ Forall in_int8 (counter_values fuel 0 receive_cond receive_next)
  /\ (forall w1,
        for_int8 fuel (127 - 1) send_cond send_next
                 (fun i _ => b <- load i ;; writeByte self fuel b) tt w1
        = run_at (fun i _ => b <- load i ;; writeByte self fuel b)
                 (map (fun k => 126 - Z.of_nat k) (seq 0 127)) tt w1)
  /\ (forall w1,
        for_int8 fuel 0 receive_cond receive_next
                 (fun i _ => b <- readByte self fuel ;; store i b) tt w1
        = run_at (fun i _ => b <- readByte self fuel ;; store i b)
                 (map Z.of_nat (seq 0 127)) tt w1)
  /\ write self fuel address 127 w
     = Done tt
         (emit (address_events self address
                  ++ enter_events self
                  ++ send_events self (rev (take 127 (mem w)))
                  ++ exit_events self) w)
  /\ length (rev (take 127 (mem w))) = 127%nat
  /\ exists w',
      read self fuel address 127 w = Done tt w'
      /\ trace w' = trace w
           ++ address_events self address
           ++ enter_events self
           ++ rx_events self (sampled w) (reads w) 127
           ++ exit_events self
      /\ reads w' = (reads w + 8 * 127)%nat
      /\ length (mem w') = length (mem w).
Proof.
  intros Hf Hm send_cond send_next receive_cond receive_next.
  assert (Hdi : loop_indices fuel send_cond send_next (to_int8 (127 - 1))
                = map (fun k => 126 - Z.of_nat k) (seq 0 127)).
  { replace fuel with (129 + (fuel - 129))%nat by lia.
    vm_compute. reflexivity. }
  assert (Hui : loop_indices fuel receive_cond receive_next (to_int8 0)
                = map Z.of_nat (seq 0 127)).
  { replace fuel with (129 + (fuel - 129))%nat by lia.
    vm_compute. reflexivity. }
  assert (Hdown : counter_values fuel (127 - 1) send_cond send_next
                  = map (fun k => 126 - Z.of_nat k) (seq 0 128)).
  { unfold counter_values. rewrite Hdi. vm_compute. reflexivity. }
  assert (Hup : counter_values fuel 0 receive_cond receive_next
                = map Z.of_nat (seq 0 128)).
  { unfold counter_values. rewrite Hui. vm_compute. reflexivity. }
  assert (Hs : send_count 127 = 127%nat) by reflexivity.
  assert (Hr : receive_count 127 = 127%nat) by reflexivity.
  split; [exact Hdi|]. split; [exact Hdown|].
  split.
  { rewrite Hdown. apply List.Forall_forall. intros x Hx.
    apply List.in_map_iff in Hx as (k & <- & Hk). apply List.in_seq in Hk.
    unfold in_int8. lia. }
  split; [exact Hui|]. split; [exact Hup|].
  split.
  { rewrite Hup. apply List.Forall_forall. intros x Hx.
    apply List.in_map_iff in Hx as (k & <- & Hk). apply List.in_seq in Hk.
    unfold in_int8. lia. }
  split.
  { intros w1. unfold for_int8.
    rewrite loop_int8_run_at by (rewrite Hdi, length_map, length_seq; lia).
    now rewrite Hdi. }
  split.
  { intros w1. unfold for_int8.
    rewrite loop_int8_run_at by (rewrite Hui, length_map, length_seq; lia).
    now rewrite Hui. }
  split.
  { rewrite write_run; [| exact Hf | rewrite Hs; exact Hm].
    rewrite Hs. reflexivity. }
  split.
  { rewrite length_rev, length_take. lia. }
  eexists. split.
  { apply read_run; [exact Hf | lia | rewrite Hr; exact Hm]. }
  rewrite Hr. cbn [trace reads mem].
  split; [reflexivity|]. split; [lia|].
  rewrite length_app, length_drop, rx_bytes_map, length_map, length_seq. lia.
Qed.

Lemma C8_max_length_no_counter_overflow_witness :
  (128 < 129)%nat
  /\ (127 <= length (mem (demo_world (repeat 85%Z 127%nat))))%nat
  /\ Forall in_int8
       (counter_values 129 (127 - 1) (fun i => i >=? 0) (fun i => i - 1))
  /\ Forall in_int8
       (counter_values 129 0 (fun i => i <? 127) (fun i => i + 1)).
Proof.
  assert (Hf : (128 < 129)%nat) by lia.
  assert (Hm : (127 <= length (mem (demo_world (repeat 85%Z 127%nat))))%nat)
    by (vm_compute; lia).
  destruct (C8_max_length_no_counter_overflow demo_bus 129 5 _ Hf Hm)
    as (_ & _ & Hd & _ & _ & Hu & _).
  split; [exact Hf|]. split; [exact Hm|]. split; [exact Hd | exact Hu].
Defined.

(** C9. [init()] makes OUT, CLOCK and ENABLE outputs and IN an input
    that is then written high (its pull-up), drives OUT low and CLOCK low,
    and then writes ENABLE high and low, once each, with one delay unit
    after either write.  Whatever the lines were before, OUT, CLOCK and
    ENABLE are low afterwards; on four distinct pins ENABLE, low before,
    rises once and falls once. *)
Theorem C9_init_sequence (self : SanyoCCB) (w : world) :
  let evs :=
    [ PinMode (_do_pin self) OUTPUT;
      PinMode (_cl_pin self) OUTPUT;
      PinMode (_ce_pin self) OUTPUT;
      PinMode (_di_pin self) INPUT;
      DigitalWrite (_di_pin self) High;
      DigitalWrite (_do_pin self) Low;
      DigitalWrite (_cl_pin self) Low;
      DigitalWrite (_ce_pin self) High; DelayMicroseconds CCB_DELAY;
      DigitalWrite (_ce_pin self) Low; DelayMicroseconds CCB_DELAY ] in
  init self w = Done tt (emit evs w)
  /\ (forall cur, line_level (_do_pin self) cur evs = Low)
  /\ (forall cur, line_level (_cl_pin self) cur evs = Low)
  /\ (forall cur, line_level (_ce_pin self) cur evs = Low)
  /\ (_ce_pin self <> _do_pin self ->
      _ce_pin self <> _cl_pin self ->
      _ce_pin self <> _di_pin self ->
      edges is_rise (_ce_pin self) Low evs = 1%nat
      /\ edges is_fall (_ce_pin self) Low evs = 1%nat).
Proof.
  intros evs. subst evs.
  split.
  { unfold init. repeat (erewrite bind_Done by reflexivity).
    unfold delayMicroseconds. rewrite !emit_emit. reflexivity. }
  unfold line_level. cbn [fold_left drive edges].
  rewrite !Z.eqb_refl.
  repeat split; intros.
  all: repeat match goal with
         | |- context [?a =? ?b] => destruct (Z.eqb_spec a b); try contradiction
         end.
  all: try reflexivity.
  all: try (destruct cur; reflexivity).
  all: congruence.
Qed.

Lemma C9_init_sequence_witness :
  _ce_pin demo_bus <> _do_pin demo_bus
  /\ _ce_pin demo_bus <> _cl_pin demo_bus
  /\ _ce_pin demo_bus <> _di_pin demo_bus
  /\ init demo_bus (demo_world [])
     = Done tt
         (emit [ PinMode 2 1; PinMode 3 1; PinMode 5 1; PinMode 4 0;
                 DigitalWrite 4 High; DigitalWrite 2 Low; DigitalWrite 3 Low;
                 DigitalWrite 5 High; DelayMicroseconds 100;
                 DigitalWrite 5 Low; DelayMicroseconds 100 ] (demo_world []))
  /\ edges is_rise (_ce_pin demo_bus) Low
       [ PinMode 2 1; PinMode 3 1; PinMode 5 1; PinMode 4 0;
         DigitalWrite 4 High; DigitalWrite 2 Low; DigitalWrite 3 Low;
         DigitalWrite 5 High; DelayMicroseconds 100;
         DigitalWrite 5 Low; DelayMicroseconds 100 ] = 1%nat.
Proof.
  assert (H1 : _ce_pin demo_bus <> _do_pin demo_bus) by (vm_compute; discriminate).
  assert (H2 : _ce_pin demo_bus <> _cl_pin demo_bus) by (vm_compute; discriminate).
  assert (H3 : _ce_pin demo_bus <> _di_pin demo_bus) by (vm_compute; discriminate).
  destruct (C9_init_sequence demo_bus (demo_world [])) as (Hrun & _ & _ & _ & He).
  destruct (He H1 H2 H3) as (Hrise & _).
  split; [exact H1|]. split; [exact H2|]. split; [exact H3|].
  split; [exact Hrun | exact Hrise].
Defined.

(** C10, as the code has it. For every negative [dataLength] that the
    [int8_t] parameter can hold, a read behaves exactly like a read of
    length 0, and so does a write unless [dataLength] is -128: the
    address byte and the ENABLE pulse occur, no payload byte is sent or
    received, and the buffer is neither read nor written (the result is
    the same whatever the buffer, the empty one included). *)
Theorem C10_negative_length_is_empty_transfer
        (self : SanyoCCB) (fuel : nat) (address dataLength : Z) (w : world) :
  (128 < fuel)%nat ->
  -128 <= dataLength < 0 ->
  (dataLength <> -128 ->
   write self fuel address dataLength w = write self fuel address 0 w
   /\ write self fuel address dataLength w
      = Done tt
          (emit (address_events self address
                   ++ enter_events self
                   ++ [DigitalWrite (_do_pin self) Low]
                   ++ exit_events self) w))
  /\ read self fuel address dataLength w = read self fuel address 0 w
  /\ read self fuel address dataLength w
     = Done tt
         (emit (address_events self address
                  ++ enter_events self
                  ++ exit_events self) w).
Proof.
  intros Hf Hd.
  assert (Hs0 : send_count 0 = 0%nat) by reflexivity.
  assert (Hr0 : receive_count 0 = 0%nat) by reflexivity.
  assert (Hr : receive_count dataLength = 0%nat) by (unfold receive_count; lia).
  split.
  - intros Hne.
    assert (Hs : send_count dataLength = 0%nat).
    { unfold send_count. rewrite to_int8_id by (unfold in_int8; lia). lia. }
    rewrite !write_run; try exact Hf; try (rewrite ?Hs, ?Hs0; lia).
    rewrite Hs, Hs0. split; reflexivity.
  - rewrite !read_run; try exact Hf; try lia; try (rewrite ?Hr, ?Hr0; lia).
    cbv zeta. rewrite Hr, Hr0. split; reflexivity.
Qed.

Lemma C10_negative_length_is_empty_transfer_witness :
  (128 < 129)%nat
  /\ -128 <= -3 < 0
  /\ -3 <> -128
  /\ write demo_bus 129 5 (-3) (demo_world []) = write demo_bus 129 5 0 (demo_world [])
  /\ read demo_bus 129 5 (-3) (demo_world []) = read demo_bus 129 5 0 (demo_world []).
Proof.
  assert (Hf : (128 < 129)%nat) by lia.
  assert (Hd : -128 <= -3 < 0) by lia.
  assert (Hne : -3 <> -128) by lia.
  destruct (C10_negative_length_is_empty_transfer demo_bus 129 5 (-3) (demo_world [])
              Hf Hd) as (Hw & Hr & _).
  destruct (Hw Hne) as (Hw' & _).
  split; [exact Hf|]. split; [exact Hd|]. split; [exact Hne|].
  split; [exact Hw' | exact Hr].
Defined.

(** C10 as stated fails at [dataLength = -128] on a write: [-128 - 1]
    narrowed to [int8_t] is 127, so the SEND loop runs 128 times.  With a
    buffer of 128 bytes, 128 payload bytes are sent, which a write of
    length 0 does not do; with an empty buffer the very first iteration
    reads outside it. *)
Lemma C10_negative_length_counterexample :
  -128 < 0
  /\ to_int8 (-128 - 1) = 127
  /\ write demo_bus 129 5 (-128) (demo_world (repeat 85 128))
     = Done tt
         (emit (address_events demo_bus 5
                  ++ enter_events demo_bus
                  ++ (flat_map (writeByte_events demo_bus) (repeat 85 128)
                        ++ [DigitalWrite (_do_pin demo_bus) Low])
                  ++ exit_events demo_bus)
               (demo_world (repeat 85 128)))
  /\ write demo_bus 129 5 (-128) (demo_world (repeat 85 128))
     <> write demo_bus 129 5 0 (demo_world (repeat 85 128))
  /\ write demo_bus 129 5 (-128) (demo_world []) = Undefined.
Proof.
  split; [lia|]. split; [reflexivity|].
  split; [vm_compute; reflexivity|].
  split; [|vm_compute; reflexivity].
  intros H.
  apply (f_equal (fun o => match o with
                           | Done _ w' => length (trace w')
                           | _ => O
                           end)) in H.
  vm_compute in H. discriminate H.
Qed.

(** ** Further properties of the driver *)

Lemma bind_Undefined {A B} (m : M A) (k : A -> M B) (w : world) :
  m w = Undefined -> bind m k w = Undefined.
Proof. intros H. unfold bind. now rewrite H. Qed.

Lemma framed_address_bits (a : Z) :
  0 <= a <= 255 ->
  bits_lsb_first (framed_address a)
  = map (fun i => level_of_bit (Z.testbit a i)) [4; 5; 6; 7; 0; 1; 2; 3].
Proof.
  intros Ha.
  pose (same := fun a =>
          forallb (fun p => Bool.eqb (Z.testbit (framed_address a) (fst p))
                                     (Z.testbit a (snd p)))
                  [(0, 4); (1, 5); (2, 6); (3, 7); (4, 0); (5, 1); (6, 2); (7, 3)]).
  assert (H : same a = true)
    by (apply all_bytes; [vm_compute; reflexivity | exact Ha]).
  unfold same in H. cbn [forallb fst snd] in H.
  repeat match type of H with
         | (_ && _) = true =>
             apply andb_true_iff in H;
             let E := fresh "E" in
             destruct H as [E H]; apply Bool.eqb_prop in E
         end.
  unfold bits_lsb_first. cbn [map]. congruence.
Qed.

Lemma writeByte_events_bits (self : SanyoCCB) (b : Z) :
  writeByte_events self b = flat_map (out_bit_events self) (bits_lsb_first b).
Proof. reflexivity. Qed.

(** X1. The address byte goes out on OUT as bits 4, 5, 6, 7, 0, 1, 2, 3
    of [address], in this order, one clocked bit each, in a write as in a
    read. *)
Theorem X1_address_bit_order_on_the_wire
        (self : SanyoCCB) (fuel : nat) (address dataLength : Z) (w : world) :
  0 <= address <= 255 ->
  (128 < fuel)%nat ->
  0 <= dataLength <= 127 ->
  (Z.to_nat dataLength <= length (mem w))%nat ->
  let wire :=
    flat_map (fun i => out_bit_events self (level_of_bit (Z.testbit address i)))
             [4; 5; 6; 7; 0; 1; 2; 3] in
  (exists w1 rest,
      write self fuel address dataLength w = Done tt w1
      /\ trace w1 = trace w ++ wire ++ rest)
  /\ (exists w1 rest,
         read self fuel address dataLength w = Done tt w1
         /\ trace w1 = trace w ++ wire ++ rest).
Proof.
  intros Ha Hf Hd Hm wire.
  assert (Hw : address_events self address = wire).
  { unfold address_events. rewrite writeByte_events_bits, framed_address_bits by exact Ha.
    reflexivity. }
  rewrite <- Hw. split.
  - eexists; eexists. split.
    + apply write_run; [exact Hf|]. rewrite send_count_in_range; assumption.
    + reflexivity.
  - eexists; eexists. split.
    + apply read_run; [exact Hf | lia | exact Hm].
    + reflexivity.
Qed.

Lemma X1_address_bit_order_on_the_wire_witness :
  0 <= 5 <= 255
  /\ (128 < 129)%nat
  /\ 0 <= 2 <= 127
  /\ (Z.to_nat 2 <= length (mem (demo_world [170; 187]%Z)))%nat
  /\ exists w1 rest,
      write demo_bus 129 5 2 (demo_world [170; 187]) = Done tt w1
      /\ trace w1
         = trace (demo_world [170; 187])
             ++ flat_map (fun i => out_bit_events demo_bus
                                     (level_of_bit (Z.testbit 5 i)))
                         [4; 5; 6; 7; 0; 1; 2; 3]
             ++ rest.
Proof.
  assert (Ha : 0 <= 5 <= 255) by lia.
  assert (Hf : (128 < 129)%nat) by lia.
  assert (Hd : 0 <= 2 <= 127) by lia.
  assert (Hm : (Z.to_nat 2 <= length (mem (demo_world [170; 187]%Z)))%nat)
    by (vm_compute; lia).
  destruct (X1_address_bit_order_on_the_wire demo_bus 129 5 2 _ Ha Hf Hd Hm)
    as (Hw & _).
  split; [exact Ha|]. split; [exact Hf|]. split; [exact Hd|]. split; [exact Hm|].
  exact Hw.
Defined.

(** *** What a receiver latches *)

Lemma latched_app (data clk : Z) (e1 e2 : list event) :
  forall d c,
    latched data clk d c (e1 ++ e2)
    = latched data clk d c e1
        ++ latched data clk (line_level data d e1) (line_level clk c e1) e2.
Proof.
  induction e1 as [|e e1 IH]; intros d c; [reflexivity|].
  cbn [app latched]. rewrite IH, <- app_assoc. reflexivity.
Qed.

Lemma latched_quiet_clock (data clk : Z) (evs : list event) :
  forall d c, quiet clk evs = true -> latched data clk d c evs = [].
Proof.
  induction evs as [|e evs IH]; intros d c H; [reflexivity|].
  cbn [quiet forallb] in H. apply andb_true_iff in H as (He & Hq).
  cbn [latched].
  assert (Hc : drive clk c e = c).
  { destruct e; try reflexivity.
    cbn [writes_to drive] in *. now destruct (pin =? clk). }
  rewrite Hc, IH by exact Hq.
  now destruct c.
Qed.

Lemma latched_out_bit (self : SanyoCCB) (v d : level) :
  _do_pin self <> _cl_pin self ->
  latched (_do_pin self) (_cl_pin self) d Low (out_bit_events self v) = [v].
Proof.
  intros Hne. unfold out_bit_events. cbn [latched drive app].
  rewrite !Z.eqb_refl, (neq_eqb_false _ _ Hne), (neq_eqb_false _ _ (not_eq_sym Hne)).
  reflexivity.
Qed.

Lemma latched_out_bits (self : SanyoCCB) (vs : list level) :
  _do_pin self <> _cl_pin self ->
  forall d,
    latched (_do_pin self) (_cl_pin self) d Low (flat_map (out_bit_events self) vs)
    = vs.
Proof.
  intros Hne. induction vs as [|v vs IH]; intros d; [reflexivity|].
  cbn [flat_map]. rewrite latched_app, latched_out_bit by exact Hne.
  rewrite out_bit_clock_low, IH. reflexivity.
Qed.

Lemma latched_tx (self : SanyoCCB) (bs : list Z) :
  _do_pin self <> _cl_pin self ->
  forall d,
    latched (_do_pin self) (_cl_pin self) d Low (tx_events self bs)
    = flat_map bits_lsb_first bs.
Proof.
  intros Hne. induction bs as [|b bs IH]; intros d; [reflexivity|].
  unfold tx_events in *. cbn [flat_map].
  rewrite latched_app, writeByte_clock_low, IH.
  rewrite writeByte_events_bits, latched_out_bits by exact Hne.
  reflexivity.
Qed.

Lemma Z_of_level_of_bit (x : bool) : Z_of_level (level_of_bit x) = Z.b2z x.
Proof. now destruct x. Qed.

Lemma byte_from_bits (b : Z) :
  is_byte b ->
  Z.b2z (Z.testbit b 0) + 2 * Z.b2z (Z.testbit b 1) + 4 * Z.b2z (Z.testbit b 2)
  + 8 * Z.b2z (Z.testbit b 3) + 16 * Z.b2z (Z.testbit b 4)
  + 32 * Z.b2z (Z.testbit b 5) + 64 * Z.b2z (Z.testbit b 6)
  + 128 * Z.b2z (Z.testbit b 7) = b.
Proof.
  intros Hb. apply Z.eqb_eq.
  apply (all_bytes (fun b =>
           Z.b2z (Z.testbit b 0) + 2 * Z.b2z (Z.testbit b 1)
           + 4 * Z.b2z (Z.testbit b 2) + 8 * Z.b2z (Z.testbit b 3)
           + 16 * Z.b2z (Z.testbit b 4) + 32 * Z.b2z (Z.testbit b 5)
           + 64 * Z.b2z (Z.testbit b 6) + 128 * Z.b2z (Z.testbit b 7) =? b));
    [vm_compute; reflexivity | exact Hb].
Qed.

Lemma pack_bits (b : Z) (rest : list level) :
  is_byte b ->
  pack_lsb_first (bits_lsb_first b ++ rest) = b :: pack_lsb_first rest.
Proof.
  intros Hb. unfold bits_lsb_first. cbn [map app pack_lsb_first].
  rewrite !Z_of_level_of_bit, byte_from_bits by exact Hb. reflexivity.
Qed.

Lemma pack_bytes (bs : list Z) :
  Forall is_byte bs -> pack_lsb_first (flat_map bits_lsb_first bs) = bs.
Proof.
  induction 1 as [|b bs Hb _ IH]; [reflexivity|].
  cbn [flat_map]. now rewrite pack_bits, IH.
Qed.

Lemma framed_address_byte (a : Z) : is_byte (framed_address a).
Proof.
  unfold is_byte, framed_address, to_byte.
  pose proof (Z.mod_pos_bound (Z.lor (Z.shiftr a 4) (Z.shiftl a 4)) 256). lia.
Qed.

(** X2. A receiver that samples OUT at every rising edge of CLOCK during
    a write, and packs the levels eight by eight least significant bit
    first, gets the framed address byte followed by the payload bytes in
    reverse buffer order, and nothing else (CLOCK on a pin of its own,
    low at the start). *)
Theorem X2_write_as_latched_by_receiver
        (self : SanyoCCB) (fuel : nat) (address : Z)
        (payload rest : list Z) (w : world) (d : level) :
  (128 < fuel)%nat ->
  (length payload <= 127)%nat ->
  mem w = payload ++ rest ->
  Forall is_byte payload ->
  _do_pin self <> _cl_pin self ->
  _ce_pin self <> _cl_pin self ->
  exists w' evs,
    write self fuel address (Z.of_nat (length payload)) w = Done tt w'
    /\ trace w' = trace w ++ evs
    /\ latched (_do_pin self) (_cl_pin self) d Low evs
       = flat_map bits_lsb_first (framed_address address :: rev payload)
    /\ pack_lsb_first (latched (_do_pin self) (_cl_pin self) d Low evs)
       = framed_address address :: rev payload.
Proof.
  intros Hf Hn Hm Hb Hdc Hcc.
  assert (Hc : send_count (Z.of_nat (length payload)) = length payload).
  { rewrite send_count_in_range by lia. apply Nat2Z.id. }
  eexists; eexists. split.
  { apply write_run; [exact Hf | rewrite Hc, Hm, length_app; lia]. }
  split; [reflexivity|].
  rewrite Hc, Hm, take_app_length.
  assert (Hl : latched (_do_pin self) (_cl_pin self) d Low
                 (address_events self address ++ enter_events self
                    ++ send_events self (rev payload) ++ exit_events self)
               = flat_map bits_lsb_first (framed_address address :: rev payload)).
  { unfold address_events, send_events.
    rewrite latched_app, writeByte_clock_low.
    rewrite writeByte_events_bits, latched_out_bits by exact Hdc.
    cbn [flat_map]. f_equal.
    rewrite latched_app.
    assert (He : forall d0, latched (_do_pin self) (_cl_pin self) d0 Low
                              (enter_events self) = []).
    { intros d0. unfold enter_events. cbn [latched drive app].
      now rewrite !Z.eqb_refl, (neq_eqb_false _ _ (not_eq_sym Hcc)). }
    assert (Hle : line_level (_cl_pin self) Low (enter_events self) = Low).
    { unfold line_level, enter_events. cbn [fold_left drive].
      now rewrite Z.eqb_refl, (neq_eqb_false _ _ (not_eq_sym Hcc)). }
    rewrite He, Hle. cbn [app].
    rewrite <- app_assoc, latched_app, latched_tx by exact Hdc.
    rewrite latched_quiet_clock, app_nil_r; [reflexivity|].
    unfold quiet, exit_events. cbn [app forallb writes_to].
    now rewrite (neq_eqb_false _ _ (not_eq_sym Hdc)),
                (neq_eqb_false _ _ (not_eq_sym Hcc)). }
  split; [exact Hl|].
  rewrite Hl. apply pack_bytes.
  constructor; [apply framed_address_byte|].
  apply Forall_rev. exact Hb.
Qed.

Lemma X2_write_as_latched_by_receiver_witness :
  (128 < 129)%nat
  /\ (length [170; 187]%Z <= 127)%nat
  /\ mem (demo_world [170; 187]) = [170; 187] ++ []
  /\ Forall is_byte [170; 187]
  /\ _do_pin demo_bus <> _cl_pin demo_bus
  /\ _ce_pin demo_bus <> _cl_pin demo_bus
  /\ exists w' evs,
      write demo_bus 129 5 2 (demo_world [170; 187]) = Done tt w'
      /\ trace w' = trace (demo_world [170; 187]) ++ evs
      /\ pack_lsb_first (latched (_do_pin demo_bus) (_cl_pin demo_bus) High Low evs)
         = [80; 187; 170].
Proof.
  assert (Hf : (128 < 129)%nat) by lia.
  assert (Hn : (length [170; 187]%Z <= 127)%nat) by (simpl; lia).
  assert (Hm : mem (demo_world [170; 187]) = [170; 187] ++ []) by reflexivity.
  assert (Hb : Forall is_byte [170; 187])
    by (repeat constructor; unfold is_byte; lia).
  assert (H1 : _do_pin demo_bus <> _cl_pin demo_bus) by (vm_compute; discriminate).
  assert (H3 : _ce_pin demo_bus <> _cl_pin demo_bus) by (vm_compute; discriminate).
  destruct (X2_write_as_latched_by_receiver demo_bus 129 5 [170; 187] []
              (demo_world [170; 187]) High Hf Hn Hm Hb H1 H3)
    as (w' & evs & Hrun & Htr & _ & Hp).
  split; [exact Hf|]. split; [exact Hn|]. split; [exact Hm|]. split; [exact Hb|].
  split; [exact H1|]. split; [exact H3|].
  exists w', evs. split; [exact Hrun|]. split; [exact Htr | exact Hp].
Defined.

Lemma is_high_level_of_bit (x : bool) : is_high (level_of_bit x) = x.
Proof. now destruct x. Qed.

(** X3. The two byte primitives use opposite bit orders: when IN
    presents to [readByte] the eight levels that [writeByte(b)] put on OUT
    at its eight rising CLOCK edges, in the same order, [readByte] returns
    the byte with the bits of [b] reversed (bit [7 - i] of the result is
    bit [i] of [b]), not [b]. *)
Theorem X3_writeByte_readByte_bit_reversal
        (self : SanyoCCB) (fuel : nat) (b : Z) (w : world) (d : level) :
  (8 < fuel)%nat ->
  _do_pin self <> _cl_pin self ->
  upcoming (sampled w) (_di_pin self) (reads w) 8
    = latched (_do_pin self) (_cl_pin self) d Low (writeByte_events self b) ->
  exists r w',
    readByte self fuel w = Done r w'
    /\ is_byte r
    /\ map (Z.testbit r) [7; 6; 5; 4; 3; 2; 1; 0]
       = map (Z.testbit b) [0; 1; 2; 3; 4; 5; 6; 7].
Proof.
  intros Hf Hne Hs.
  rewrite writeByte_events_bits, latched_out_bits in Hs by exact Hne.
  eexists; eexists. split.
  { rewrite readByte_run by exact Hf. cbv zeta. rewrite Hs. reflexivity. }
  assert (E : bits_lsb_first b
              = [ level_of_bit (Z.testbit b 0); level_of_bit (Z.testbit b 1);
                  level_of_bit (Z.testbit b 2); level_of_bit (Z.testbit b 3);
                  level_of_bit (Z.testbit b 4); level_of_bit (Z.testbit b 5);
                  level_of_bit (Z.testbit b 6); level_of_bit (Z.testbit b 7) ])
    by reflexivity.
  rewrite E.
  split; [apply byte_msb_first_range|].
  rewrite byte_msb_first_bits. cbn [map].
  now rewrite !is_high_level_of_bit.
Qed.

Lemma X3_writeByte_readByte_bit_reversal_witness :
  (8 < 9)%nat
  /\ _do_pin demo_bus <> _cl_pin demo_bus
  /\ upcoming (sampled (demo_world [])) (_di_pin demo_bus) (reads (demo_world [])) 8
     = latched (_do_pin demo_bus) (_cl_pin demo_bus) Low Low
               (writeByte_events demo_bus 85)
  /\ exists r w',
      readByte demo_bus 9 (demo_world []) = Done r w'
      /\ map (Z.testbit r) [7; 6; 5; 4; 3; 2; 1; 0]
         = map (Z.testbit 85) [0; 1; 2; 3; 4; 5; 6; 7].
Proof.
  assert (Hf : (8 < 9)%nat) by lia.
  assert (Hne : _do_pin demo_bus <> _cl_pin demo_bus) by (vm_compute; discriminate).
  assert (Hs : upcoming (sampled (demo_world [])) (_di_pin demo_bus)
                        (reads (demo_world [])) 8
               = latched (_do_pin demo_bus) (_cl_pin demo_bus) Low Low
                         (writeByte_events demo_bus 85))
    by (vm_compute; reflexivity).
  destruct (X3_writeByte_readByte_bit_reversal demo_bus 9 85 (demo_world []) Low
              Hf Hne Hs) as (r & w' & Hrun & _ & Hbits).
  split; [exact Hf|]. split; [exact Hne|]. split; [exact Hs|].
  exists r, w'. split; [exact Hrun | exact Hbits].
Defined.

(** *** Transfers longer than the buffer *)

Lemma transfer_enters_data_phase (self : SanyoCCB) (fuel : nat)
      (address dataLength mode : Z) (w : world) :
  (8 < fuel)%nat ->
  ccb self fuel address dataLength mode w
  = bind
      (if mode =? _CCB_SEND then
         for_int8 fuel (dataLength - 1) (fun i => i >=? 0) (fun i => i - 1)
           (fun i _ => b <- load i ;; writeByte self fuel b) tt ;;
         digitalWrite (_do_pin self) LOW
       else if mode =? _CCB_RECEIVE then
         for_int8 fuel 0 (fun i => i <? dataLength) (fun i => i + 1)
           (fun i _ => b <- readByte self fuel ;; store i b) tt
       else ret tt)
      (fun _ => digitalWrite (_ce_pin self) LOW ;; delayMicroseconds CCB_DELAY)
      (emit (address_events self address ++ enter_events self) w).
Proof.
  intros Hf. unfold ccb.
  erewrite bind_Done by (apply writeByte_run; exact Hf).
  do 3 (erewrite bind_Done by reflexivity).
  unfold delayMicroseconds. rewrite !emit_emit. reflexivity.
Qed.

Lemma write_overrun (self : SanyoCCB) (fuel : nat) (address dataLength : Z) (w : world) :
  (128 < fuel)%nat ->
  (length (mem w) < send_count dataLength)%nat ->
  write self fuel address dataLength w = Undefined
  /\ load (to_int8 (dataLength - 1))
          (emit (address_events self address ++ enter_events self) w)
     = Undefined.
Proof.
  intros Hf Hm. unfold send_count in Hm.
  set (i := to_int8 (dataLength - 1)) in *.
  assert (Hload : forall w1, mem w1 = mem w -> load i w1 = Undefined).
  { intros w1 E. unfold load.
    destruct (Z.ltb_spec i 0) as [|_]; [reflexivity|].
    rewrite E, (lookup_ge_None_2 (mem w)) by lia. reflexivity. }
  split; [|now apply Hload].
  unfold write. rewrite transfer_enters_data_phase by lia.
  change (_CCB_SEND =? _CCB_SEND) with true. cbv iota.
  apply bind_Undefined. apply bind_Undefined.
  unfold for_int8. fold i.
  destruct fuel as [|fuel]; [lia|]. cbn [loop_int8].
  replace (i >=? 0) with true
    by (symmetry; rewrite Z.geb_leb; apply Z.leb_le; lia).
  apply bind_Undefined. apply bind_Undefined.
  now apply Hload.
Qed.



Lemma receive_loop_overrun (self : SanyoCCB) (fuel : nat) (dataLength : Z) (m : nat) :
  forall (loop_fuel k : nat) (w : world),
    (8 < fuel)%nat -> (m < loop_fuel)%nat -> dataLength <= 127 ->
    (k + m = length (mem w))%nat ->
    Z.of_nat (k + m) < dataLength ->
    loop_int8 loop_fuel (fun i => i <? dataLength) (fun i => i + 1)
              (fun i _ => b <- readByte self fuel ;; store i b)
              (Z.of_nat k) tt w
    = Undefined.
Proof.
  induction m as [|m IH]; intros loop_fuel k w Hf Hl Hd Hk Hlt.
  - destruct loop_fuel as [|lf]; [lia|]. cbn [loop_int8].
    replace (Z.of_nat k <? dataLength) with true by (symmetry; apply Z.ltb_lt; lia).
    apply bind_Undefined.
    erewrite bind_Done by (apply readByte_run; exact Hf).
    unfold store. cbn [after_reads mem].
    destruct (Z.ltb_spec (Z.of_nat k) 0) as [|_]; [reflexivity|].
    rewrite Nat2Z.id.
    destruct (Nat.ltb_spec k (length (mem w))) as [H|_]; [lia | reflexivity].
  - destruct loop_fuel as [|lf]; [lia|].
    set (b := byte_msb_first (upcoming (sampled w) (_di_pin self) (reads w) 8)).
    set (evs := readByte_events self (upcoming (sampled w) (_di_pin self) (reads w) 8)).
    rewrite (loop_int8_step _ _ _ _ _ (Z.of_nat (S k)) tt tt w
               (World (trace w ++ evs) (sampled w) (8 + reads w)
                      (<[k := b]> (mem w)))).
    + apply IH; cbn [mem]; try rewrite length_insert; try lia.
    + apply Z.ltb_lt. lia.
    + unfold bind. rewrite readByte_run by assumption. cbv zeta.
      fold b evs. rewrite store_run by (cbn [after_reads mem]; lia).
      reflexivity.
    + rewrite to_int8_id by (unfold in_int8; lia). lia.
Qed.

(** X5. Nor is a bound checked before [data[i] = readByte()]: a read
    whose length, within 1..127, exceeds the buffer ends up storing a
    received byte outside the buffer. *)
Theorem X5_read_beyond_buffer_is_undefined
        (self : SanyoCCB) (fuel : nat) (address dataLength : Z) (w : world) :
  (128 < fuel)%nat ->
  1 <= dataLength <= 127 ->
  (length (mem w) < Z.to_nat dataLength)%nat ->
  read self fuel address dataLength w = Undefined.
Proof.
  intros Hf Hd Hm.
  unfold read. rewrite transfer_enters_data_phase by lia.
  change (_CCB_RECEIVE =? _CCB_SEND) with false.
  change (_CCB_RECEIVE =? _CCB_RECEIVE) with true. cbv iota.
  apply bind_Undefined.
  unfold for_int8. change (to_int8 0) with (Z.of_nat 0).
  apply (receive_loop_overrun self fuel dataLength (length (mem w)));
    cbn [emit mem]; lia.
Qed.

Lemma X5_read_beyond_buffer_is_undefined_witness :
  (128 < 129)%nat
  /\ 1 <= 3 <= 127
  /\ (length (mem (demo_world [170; 187]%Z)) < Z.to_nat 3)%nat
  /\ read demo_bus 129 5 3 (demo_world [170; 187]) = Undefined.
Proof.
  assert (Hf : (128 < 129)%nat) by lia.
  assert (Hd : 1 <= 3 <= 127) by lia.
  assert (Hm : (length (mem (demo_world [170; 187]%Z)) < Z.to_nat 3)%nat)
    by (vm_compute; lia).
  pose proof (X5_read_beyond_buffer_is_undefined demo_bus 129 5 3 _ Hf Hd Hm) as H.
  split; [exact Hf|]. split; [exact Hd|]. split; [exact Hm | exact H].
Defined.

(** *** Termination *)

Lemma run_at_fuel_free {A} (body : Z -> A -> M A) (js : list Z) :
  (forall j acc w, body j acc w <> OutOfFuel) ->
  forall acc w, run_at body js acc w <> OutOfFuel.
Proof.
  intros Hb. induction js as [|j js IH]; intros acc w; [discriminate|].
  cbn [run_at]. unfold bind.
  specialize (Hb j acc w).
  destruct (body j acc w) as [acc' w'| |]; [apply IH | discriminate | contradiction].
Qed.

Lemma send_indices_length (fuel : nat) :
  forall i, i <= 127 ->
    (length (loop_indices fuel (fun i => (i >=? 0)%Z) (fun i => (i - 1)%Z) i)
     <= Z.to_nat (i + 1)%Z)%nat.
Proof.
  induction fuel as [|fuel IH]; intros i Hi; [simpl; lia|].
  cbn [loop_indices].
  destruct (i >=? 0) eqn:E; [|simpl; lia].
  rewrite Z.geb_leb in E. apply Z.leb_le in E.
  rewrite to_int8_id by (unfold in_int8; lia).
  cbn [length]. specialize (IH (i - 1)). lia.
Qed.

Lemma receive_indices_length (fuel : nat) (dataLength : Z) :
  dataLength <= 127 ->
  forall i, -128 <= i ->
    (length (loop_indices fuel (fun i => (i <? dataLength)%Z) (fun i => (i + 1)%Z) i)
     <= Z.to_nat (dataLength - i)%Z)%nat.
Proof.
  intros Hd. induction fuel as [|fuel IH]; intros i Hi; [simpl; lia|].
  cbn [loop_indices].
  destruct (Z.ltb_spec i dataLength) as [E|E]; [|simpl; lia].
  rewrite to_int8_id by (unfold in_int8; lia).
  cbn [length]. specialize (IH (i + 1)). lia.
Qed.

(** X6. For every length the [int8_t] parameter can hold, whatever the
    mode and the buffer, the loops of a transfer come to an end: the
    payload loop leaves after at most 128 iterations. *)
Theorem X6_transfer_loops_terminate
        (self : SanyoCCB) (fuel : nat) (address dataLength mode : Z) (w : world) :
  (128 < fuel)%nat ->
  in_int8 dataLength ->
  ccb self fuel address dataLength mode w <> OutOfFuel
  /\ (length (loop_indices fuel (fun i => (i >=? 0)%Z) (fun i => (i - 1)%Z)
                           (to_int8 (dataLength - 1)%Z)) <= 128)%nat
  /\ (length (loop_indices fuel (fun i => (i <? dataLength)%Z) (fun i => (i + 1)%Z)
                           (to_int8 0%Z)) <= 127)%nat.
Proof.
  intros Hf Hd. unfold in_int8 in Hd.
  pose proof (to_int8_range (dataLength - 1)) as Hr. unfold in_int8 in Hr.
  assert (Hs : (length (loop_indices fuel (fun i => (i >=? 0)%Z) (fun i => (i - 1)%Z)
                                     (to_int8 (dataLength - 1)%Z)) <= 128)%nat).
  { pose proof (send_indices_length fuel (to_int8 (dataLength - 1))). lia. }
  assert (Hv : (length (loop_indices fuel (fun i => (i <? dataLength)%Z) (fun i => (i + 1)%Z)
                                     (to_int8 0%Z)) <= 127)%nat).
  { pose proof (receive_indices_length fuel dataLength ltac:(lia) (to_int8 0)) as H.
    change (to_int8 0) with 0 in *. lia. }
  split; [|split; assumption].
  rewrite transfer_enters_data_phase by lia.
  set (w1 := emit (address_events self address ++ enter_events self) w).
  unfold bind at 1.
  destruct (mode =? _CCB_SEND).
  - unfold bind at 1. unfold for_int8.
    rewrite loop_int8_run_at by lia.
    match goal with
    | |- context [run_at ?body ?js ?acc ?w0] =>
        pose proof (run_at_fuel_free body js) as Hrun;
        destruct (run_at body js acc w0) as [[] w2| |] eqn:E
    end; try discriminate.
    exfalso. refine (Hrun _ tt w1 E).
    intros j acc w0. unfold bind, load.
    destruct (j <? 0); [discriminate|].
    destruct (mem w0 !! Z.to_nat j); [|discriminate].
    rewrite writeByte_run by lia. discriminate.
  - destruct (mode =? _CCB_RECEIVE); [|discriminate].
    unfold for_int8.
    rewrite loop_int8_run_at by lia.
    match goal with
    | |- context [run_at ?body ?js ?acc ?w0] =>
        pose proof (run_at_fuel_free body js) as Hrun;
        destruct (run_at body js acc w0) as [[] w2| |] eqn:E
    end; try discriminate.
    exfalso. refine (Hrun _ tt w1 E).
    intros j acc w0. unfold bind.
    rewrite readByte_run by lia. cbv zeta. unfold store.
    destruct (j <? 0); [discriminate|].
    match goal with |- context [if ?c then _ else _] => destruct c end;
      discriminate.
Qed.

Lemma X6_transfer_loops_terminate_witness :
  (128 < 129)%nat
  /\ in_int8 (-128)
  /\ ccb demo_bus 129 5 (-128) _CCB_SEND (demo_world [170; 187]) <> OutOfFuel
  /\ ccb demo_bus 129 5 (-128) _CCB_RECEIVE (demo_world [170; 187]) <> OutOfFuel.
Proof.
  assert (Hf : (128 < 129)%nat) by lia.
  assert (Hd : in_int8 (-128)) by (unfold in_int8; lia).
  split; [exact Hf|]. split; [exact Hd|].
  split.
  - exact (proj1 (X6_transfer_loops_terminate demo_bus 129 5 (-128) _CCB_SEND
                    (demo_world [170; 187]) Hf Hd)).
  - exact (proj1 (X6_transfer_loops_terminate demo_bus 129 5 (-128) _CCB_RECEIVE
                    (demo_world [170; 187]) Hf Hd)).
Defined.

(** *** Time spent waiting *)

Lemma total_delay_app (e1 e2 : list event) :
  total_delay (e1 ++ e2) = total_delay e1 + total_delay e2.
Proof.
  induction e1 as [|e e1 IH]; [reflexivity|].
  cbn [app]. unfold total_delay in *. cbn [fold_right].
  destruct e; rewrite IH; lia.
Qed.

Lemma total_delay_out_bits (self : SanyoCCB) (vs : list level) :
  total_delay (flat_map (out_bit_events self) vs) = 200 * Z.of_nat (length vs).
Proof.
  induction vs as [|v vs IH]; [reflexivity|].
  cbn [flat_map length]. rewrite total_delay_app, IH.
  change (total_delay (out_bit_events self v)) with 200. lia.
Qed.

Lemma total_delay_in_bits (self : SanyoCCB) (vs : list level) :
  total_delay (flat_map (in_bit_events self) vs) = 200 * Z.of_nat (length vs).
Proof.
  induction vs as [|v vs IH]; [reflexivity|].
  cbn [flat_map length]. rewrite total_delay_app, IH.
  change (total_delay (in_bit_events self v)) with 200. lia.
Qed.

Lemma total_delay_writeByte (self : SanyoCCB) (b : Z) :
  total_delay (writeByte_events self b) = 1600.
Proof. rewrite writeByte_events_bits, total_delay_out_bits. reflexivity. Qed.

Lemma total_delay_tx (self : SanyoCCB) (bs : list Z) :
  total_delay (tx_events self bs) = 1600 * Z.of_nat (length bs).
Proof.
  induction bs as [|b bs IH]; [reflexivity|].
  unfold tx_events in *. cbn [flat_map length].
  rewrite total_delay_app, total_delay_writeByte, IH. lia.
Qed.

Lemma total_delay_rx (self : SanyoCCB) (s : Z -> nat -> level) (n : nat) :
  forall r, total_delay (rx_events self s r n) = 1600 * Z.of_nat n.
Proof.
  induction n as [|n IH]; intros r; [reflexivity|].
  cbn [rx_events]. rewrite total_delay_app, IH.
  unfold readByte_events. rewrite total_delay_in_bits.
  unfold upcoming. rewrite length_map, length_seq. lia.
Qed.

(** X7. A transfer of [dataLength] bytes, in either direction, waits in
    [delayMicroseconds] for exactly [1800 + 1600 * dataLength]
    microseconds in all: two delays of 100 for each of the eight bits of
    the address byte and of every payload byte, and one after each of the
    two ENABLE writes. *)
Theorem X7_transfer_total_delay
        (self : SanyoCCB) (fuel : nat) (address dataLength : Z) (w : world) :
  (128 < fuel)%nat ->
  0 <= dataLength <= 127 ->
  (Z.to_nat dataLength <= length (mem w))%nat ->
  (exists w' evs,
      write self fuel address dataLength w = Done tt w'
      /\ trace w' = trace w ++ evs
      /\ total_delay evs = 1800 + 1600 * dataLength)
  /\ (exists w' evs,
         read self fuel address dataLength w = Done tt w'
         /\ trace w' = trace w ++ evs
         /\ total_delay evs = 1800 + 1600 * dataLength).
Proof.
  intros Hf Hd Hm. split.
  - eexists; eexists. split.
    { apply write_run; [exact Hf|]. rewrite send_count_in_range; assumption. }
    split; [reflexivity|].
    rewrite send_count_in_range by exact Hd.
    unfold address_events, send_events.
    rewrite !total_delay_app, total_delay_writeByte, total_delay_tx.
    rewrite length_rev, length_take_le by exact Hm.
    change (total_delay (enter_events self)) with 100.
    change (total_delay (exit_events self)) with 100.
    change (total_delay [DigitalWrite (_do_pin self) Low]) with 0. lia.
  - eexists; eexists. split.
    { apply read_run; [exact Hf | lia | exact Hm]. }
    cbn [trace]. split; [reflexivity|].
    unfold address_events, receive_count.
    rewrite !total_delay_app, total_delay_writeByte, total_delay_rx.
    change (total_delay (enter_events self)) with 100.
    change (total_delay (exit_events self)) with 100. lia.
Qed.

Lemma X7_transfer_total_delay_witness :
  (128 < 129)%nat
  /\ 0 <= 2 <= 127
  /\ (Z.to_nat 2 <= length (mem (demo_world [170; 187]%Z)))%nat
  /\ exists w' evs,
      write demo_bus 129 5 2 (demo_world [170; 187]) = Done tt w'
      /\ trace w' = trace (demo_world [170; 187]) ++ evs
      /\ total_delay evs = 1800 + 1600 * 2.
Proof.
  assert (Hf : (128 < 129)%nat) by lia.
  assert (Hd : 0 <= 2 <= 127) by lia.
  assert (Hm : (Z.to_nat 2 <= length (mem (demo_world [170; 187]%Z)))%nat)
    by (vm_compute; lia).
  destruct (X7_transfer_total_delay demo_bus 129 5 2 _ Hf Hd Hm) as (Hw & _).
  split; [exact Hf|]. split; [exact Hd|]. split; [exact Hm | exact Hw].
Defined.

(** *** Counting pulses *)

Lemma edges_quiet (edge : level -> level -> bool) (pin : Z) (evs : list event) :
  (forall c, edge c c = false) ->
  forall cur, quiet pin evs = true -> edges edge pin cur evs = O.
Proof.
  intros Hedge. induction evs as [|e evs IH]; intros cur H; [reflexivity|].
  cbn [quiet forallb] in H. apply andb_true_iff in H as (He & Hq).
  cbn [edges].
  assert (Hc : drive pin cur e = cur).
  { destruct e; try reflexivity.
    cbn [writes_to drive] in *. now destruct (pin0 =? pin). }
  now rewrite Hc, Hedge, IH.
Qed.

Lemma is_rise_irrefl (c : level) : is_rise c c = false.
Proof. now destruct c. Qed.

Lemma is_fall_irrefl (c : level) : is_fall c c = false.
Proof. now destruct c. Qed.

Lemma in_bits_clock (self : SanyoCCB) (vs : list level) :
  edges is_rise (_cl_pin self) Low (flat_map (in_bit_events self) vs) = length vs
  /\ edges is_fall (_cl_pin self) Low (flat_map (in_bit_events self) vs) = length vs
  /\ line_level (_cl_pin self) Low (flat_map (in_bit_events self) vs) = Low.
Proof.
  induction vs as [|v vs (IH1 & IH2 & IH3)]; [now auto|].
  assert (H1 : edges is_rise (_cl_pin self) Low (in_bit_events self v) = 1%nat)
    by (unfold in_bit_events; cbn [edges drive]; now rewrite Z.eqb_refl).
  assert (H2 : edges is_fall (_cl_pin self) Low (in_bit_events self v) = 1%nat)
    by (unfold in_bit_events; cbn [edges drive]; now rewrite Z.eqb_refl).
  cbn [flat_map length].
  rewrite !edges_app, line_level_app, in_bit_clock_low, H1, H2, IH1, IH2, IH3.
  auto.
Qed.

Lemma tx_clock (self : SanyoCCB) (bs : list Z) :
  _do_pin self <> _cl_pin self ->
  edges is_rise (_cl_pin self) Low (tx_events self bs) = (8 * length bs)%nat
  /\ edges is_fall (_cl_pin self) Low (tx_events self bs) = (8 * length bs)%nat.
Proof.
  intros Hne. unfold tx_events.
  induction bs as [|b bs (IH1 & IH2)]; [now auto|].
  destruct (out_bits_clock self (bits_lsb_first b) Hne) as (H1 & H2 & _).
  cbn [flat_map length].
  rewrite !edges_app, writeByte_clock_low, IH1, IH2.
  rewrite writeByte_events_bits, H1, H2.
  change (length (bits_lsb_first b)) with 8%nat. lia.
Qed.

Lemma rx_clock (self : SanyoCCB) (s : Z -> nat -> level) (n : nat) :
  forall r,
    edges is_rise (_cl_pin self) Low (rx_events self s r n) = (8 * n)%nat
    /\ edges is_fall (_cl_pin self) Low (rx_events self s r n) = (8 * n)%nat.
Proof.
  induction n as [|n IH]; intros r; [now auto|].
  destruct (IH (8 + r)%nat) as (IH1 & IH2).
  destruct (in_bits_clock self (upcoming s (_di_pin self) r 8)) as (H1 & H2 & H3).
  cbn [rx_events]. unfold readByte_events.
  rewrite !edges_app, H3, H1, H2, IH1, IH2.
  unfold upcoming. rewrite length_map, length_seq. lia.
Qed.

(** CLOCK and ENABLE edges of a transfer whose payload part leaves ENABLE
    alone and pulses CLOCK [p] times from rest to rest. *)
Lemma transfer_pulses (self : SanyoCCB) (address : Z) (payload : list event) (p : nat) :
  _do_pin self <> _cl_pin self ->
  _ce_pin self <> _do_pin self ->
  _ce_pin self <> _cl_pin self ->
  quiet (_ce_pin self) payload = true ->
  edges is_rise (_cl_pin self) Low payload = p ->
  edges is_fall (_cl_pin self) Low payload = p ->
  line_level (_cl_pin self) Low payload = Low ->
  let evs := address_events self address ++ enter_events self
               ++ payload ++ exit_events self in
  edges is_rise (_cl_pin self) Low evs = (8 + p)%nat
  /\ edges is_fall (_cl_pin self) Low evs = (8 + p)%nat
  /\ edges is_rise (_ce_pin self) Low evs = 1%nat
  /\ edges is_fall (_ce_pin self) Low evs = 1%nat.
Proof.
  intros Hdc Hcd Hcc Hq Hr Hfl Hl evs. subst evs.
  destruct (out_bits_clock self (bits_lsb_first (framed_address address)) Hdc)
    as (A1 & A2 & A3).
  change (length (bits_lsb_first (framed_address address))) with 8%nat in *.
  rewrite <- writeByte_events_bits in A1, A2, A3.
  fold (address_events self address) in A1, A2, A3.
  assert (Ha : quiet (_ce_pin self) (address_events self address) = true)
    by now apply quiet_writeByte.
  assert (Hcl : (_ce_pin self =? _cl_pin self) = false)
    by now apply neq_eqb_false, not_eq_sym.
  assert (Hlc : (_cl_pin self =? _ce_pin self) = false)
    by now apply neq_eqb_false.
  assert (E1 : forall edge, (forall c, edge c c = false) ->
                 edges edge (_cl_pin self) Low (enter_events self) = O).
  { intros edge He. unfold enter_events. cbn [edges drive].
    now rewrite Z.eqb_refl, Hcl, !He. }
  assert (E2 : line_level (_cl_pin self) Low (enter_events self) = Low).
  { unfold enter_events, line_level. cbn [fold_left drive].
    now rewrite Z.eqb_refl, Hcl. }
  assert (X1 : forall edge, (forall c, edge c c = false) ->
                 edges edge (_cl_pin self) Low (exit_events self) = O).
  { intros edge He. unfold exit_events. cbn [edges drive].
    now rewrite Hcl, !He. }
  assert (E3 : edges is_rise (_ce_pin self) Low (enter_events self) = 1%nat
               /\ edges is_fall (_ce_pin self) Low (enter_events self) = O
               /\ line_level (_ce_pin self) Low (enter_events self) = High).
  { unfold enter_events, line_level. cbn [edges fold_left drive].
    now rewrite Z.eqb_refl, Hlc. }
  assert (X2 : edges is_rise (_ce_pin self) High (exit_events self) = O
               /\ edges is_fall (_ce_pin self) High (exit_events self) = 1%nat).
  { unfold exit_events. cbn [edges drive]. now rewrite Z.eqb_refl. }
  destruct E3 as (E3 & E4 & E5). destruct X2 as (X2 & X3).
  repeat split.
  - rewrite !edges_app, A1, A3, E1, E2, Hr, Hl, X1 by apply is_rise_irrefl. lia.
  - rewrite !edges_app, A2, A3, E1, E2, Hfl, Hl, X1 by apply is_fall_irrefl. lia.
  - rewrite !edges_app.
    rewrite (edges_quiet _ _ _ is_rise_irrefl _ Ha), (line_level_quiet _ _ _ Ha).
    rewrite E3, E5.
    rewrite (edges_quiet _ _ _ is_rise_irrefl _ Hq), (line_level_quiet _ _ _ Hq).
    rewrite X2. reflexivity.
  - rewrite !edges_app.
    rewrite (edges_quiet _ _ _ is_fall_irrefl _ Ha), (line_level_quiet _ _ _ Ha).
    rewrite E4, E5.
    rewrite (edges_quiet _ _ _ is_fall_irrefl _ Hq), (line_level_quiet _ _ _ Hq).
    rewrite X3. reflexivity.
Qed.

Lemma send_clock (self : SanyoCCB) (bs : list Z) :
  _do_pin self <> _cl_pin self ->
  edges is_rise (_cl_pin self) Low (send_events self bs) = (8 * length bs)%nat
  /\ edges is_fall (_cl_pin self) Low (send_events self bs) = (8 * length bs)%nat.
Proof.
  intros Hne. destruct (tx_clock self bs Hne) as (H1 & H2).
  assert (Hl : line_level (_cl_pin self) Low (tx_events self bs) = Low).
  { unfold tx_events. apply flat_map_rests_low.
    intros b c. apply writeByte_clock_low. }
  unfold send_events. rewrite !edges_app, H1, H2, Hl.
  cbn [edges drive]. rewrite (neq_eqb_false _ _ (not_eq_sym Hne)).
  cbn [is_rise is_fall]. lia.
Qed.

(** X8. On distinct OUT, CLOCK and ENABLE pins and a bus that starts
    idle, a transfer of [dataLength] bytes pulses CLOCK exactly
    [8 * (dataLength + 1)] times (as many rising as falling edges) and
    ENABLE exactly once, in a write as in a read. *)
Theorem X8_transfer_pulse_counts
        (self : SanyoCCB) (fuel : nat) (address dataLength : Z) (w : world) :
  (128 < fuel)%nat ->
  0 <= dataLength <= 127 ->
  (Z.to_nat dataLength <= length (mem w))%nat ->
  _do_pin self <> _cl_pin self ->
  _ce_pin self <> _do_pin self ->
  _ce_pin self <> _cl_pin self ->
  let pulses := (8 + 8 * Z.to_nat dataLength)%nat in
  (exists w' evs,
      write self fuel address dataLength w = Done tt w'
      /\ trace w' = trace w ++ evs
      /\ edges is_rise (_cl_pin self) Low evs = pulses
      /\ edges is_fall (_cl_pin self) Low evs = pulses
      /\ edges is_rise (_ce_pin self) Low evs = 1%nat
      /\ edges is_fall (_ce_pin self) Low evs = 1%nat)
  /\ (exists w' evs,
         read self fuel address dataLength w = Done tt w'
         /\ trace w' = trace w ++ evs
         /\ edges is_rise (_cl_pin self) Low evs = pulses
         /\ edges is_fall (_cl_pin self) Low evs = pulses
         /\ edges is_rise (_ce_pin self) Low evs = 1%nat
         /\ edges is_fall (_ce_pin self) Low evs = 1%nat).
Proof.
  intros Hf Hd Hm Hdc Hcd Hcc pulses. subst pulses. split.
  - eexists; eexists. split.
    { apply write_run; [exact Hf|]. rewrite send_count_in_range; assumption. }
    split; [reflexivity|].
    rewrite send_count_in_range by exact Hd.
    set (bs := rev (take (Z.to_nat dataLength) (mem w))).
    assert (Hlen : length bs = Z.to_nat dataLength)
      by (unfold bs; now rewrite length_rev, length_take_le).
    destruct (send_clock self bs Hdc) as (H1 & H2).
    rewrite Hlen in H1, H2.
    apply (transfer_pulses self address (send_events self bs));
      try assumption.
    + now apply quiet_send.
    + apply send_clock_low.
  - eexists; eexists. split.
    { apply read_run; [exact Hf | lia | exact Hm]. }
    cbn [trace]. split; [reflexivity|].
    unfold receive_count.
    destruct (rx_clock self (sampled w) (Z.to_nat dataLength) (reads w)) as (H1 & H2).
    apply (transfer_pulses self address
             (rx_events self (sampled w) (reads w) (Z.to_nat dataLength)));
      try assumption.
    + now apply quiet_rx.
    + apply rx_clock_low.
Qed.

Lemma X8_transfer_pulse_counts_witness :
  (128 < 129)%nat
  /\ 0 <= 2 <= 127
  /\ (Z.to_nat 2 <= length (mem (demo_world [170; 187]%Z)))%nat
  /\ _do_pin demo_bus <> _cl_pin demo_bus
  /\ _ce_pin demo_bus <> _do_pin demo_bus
  /\ _ce_pin demo_bus <> _cl_pin demo_bus
  /\ exists w' evs,
      read demo_bus 129 5 2 (demo_world [170; 187]) = Done tt w'
      /\ trace w' = trace (demo_world [170; 187]) ++ evs
      /\ edges is_rise (_cl_pin demo_bus) Low evs = 24%nat
      /\ edges is_rise (_ce_pin demo_bus) Low evs = 1%nat.
Proof.
  assert (Hf : (128 < 129)%nat) by lia.
  assert (Hd : 0 <= 2 <= 127) by lia.
  assert (Hm : (Z.to_nat 2 <= length (mem (demo_world [170; 187]%Z)))%nat)
    by (vm_compute; lia).
  assert (H1 : _do_pin demo_bus <> _cl_pin demo_bus) by (vm_compute; discriminate).
  assert (H2 : _ce_pin demo_bus <> _do_pin demo_bus) by (vm_compute; discriminate).
  assert (H3 : _ce_pin demo_bus <> _cl_pin demo_bus) by (vm_compute; discriminate).
  destruct (X8_transfer_pulse_counts demo_bus 129 5 2 _ Hf Hd Hm H1 H2 H3)
    as (_ & w' & evs & Hrun & Htr & Hc & _ & He & _).
  split; [exact Hf|]. split; [exact Hd|]. split; [exact Hm|].
  split; [exact H1|]. split; [exact H2|]. split; [exact H3|].
  exists w', evs. split; [exact Hrun|]. split; [exact Htr|].
  split; [exact Hc | exact He].
Defined.

(** *** What each direction leaves behind *)

Lemma forallb_flat_map {A B} (p : B -> bool) (f : A -> list B) (l : list A) :
  (forall x, forallb p (f x) = true) -> forallb p (flat_map f l) = true.
Proof.
  intros H. induction l as [|x l IH]; [reflexivity|].
  cbn [flat_map]. now rewrite forallb_app, H, IH.
Qed.

Lemma writeByte_out_level (self : SanyoCCB) (b : Z) (cur : level) :
  _do_pin self <> _cl_pin self ->
  line_level (_do_pin self) cur (writeByte_events self b)
  = level_of_bit (Z.testbit b 7).
Proof.
  intros Hne. unfold writeByte_events, out_bit_events, line_level.
  cbn [flat_map app fold_left drive].
  now rewrite !Z.eqb_refl, !(neq_eqb_false _ _ Hne).
Qed.

Lemma framed_address_top_bit (a : Z) :
  0 <= a <= 255 -> Z.testbit (framed_address a) 7 = Z.testbit a 3.
Proof.
  intros Ha. apply Bool.eqb_prop.
  apply (all_bytes (fun a => Bool.eqb (Z.testbit (framed_address a) 7)
                                      (Z.testbit a 3)));
    [vm_compute; reflexivity | exact Ha].
Qed.

(** X9. A write never samples IN and never changes the buffer, and it
    always leaves OUT low, whatever its length and however the pins are
    bound. *)
Theorem X9_write_leaves_out_low_and_buffer_alone
        (self : SanyoCCB) (fuel : nat) (address dataLength : Z) (w : world)
        (cur : level) :
  (128 < fuel)%nat ->
  0 <= dataLength <= 127 ->
  (Z.to_nat dataLength <= length (mem w))%nat ->
  exists w' evs,
    write self fuel address dataLength w = Done tt w'
    /\ trace w' = trace w ++ evs
    /\ forallb (fun e => negb (is_sample e)) evs = true
    /\ reads w' = reads w
    /\ mem w' = mem w
    /\ line_level (_do_pin self) cur evs = Low.
Proof.
  intros Hf Hd Hm.
  eexists; eexists. split.
  { apply write_run; [exact Hf|]. rewrite send_count_in_range; assumption. }
  split; [reflexivity|].
  assert (Hw : forall b, forallb (fun e => negb (is_sample e))
                                 (writeByte_events self b) = true).
  { intros b. unfold writeByte_events. apply forallb_flat_map. reflexivity. }
  split.
  { unfold address_events, send_events, tx_events.
    rewrite !forallb_app, Hw, forallb_flat_map by exact Hw. reflexivity. }
  split; [reflexivity|]. split; [reflexivity|].
  unfold send_events, exit_events.
  match goal with
  | |- line_level _ _ (?A ++ ?E ++ (?T ++ ?D) ++ ?X) = _ =>
      replace (A ++ E ++ (T ++ D) ++ X) with ((A ++ E ++ T) ++ (D ++ X))
        by (now rewrite <- !app_assoc)
  end.
  rewrite line_level_app.
  unfold line_level at 1. cbn [app fold_left drive].
  rewrite Z.eqb_refl. now destruct (_ce_pin self =? _do_pin self).
Qed.

Lemma X9_write_leaves_out_low_and_buffer_alone_witness :
  (128 < 129)%nat
  /\ 0 <= 2 <= 127
  /\ (Z.to_nat 2 <= length (mem (demo_world [170; 187]%Z)))%nat
  /\ exists w' evs,
      write demo_bus 129 5 2 (demo_world [170; 187]) = Done tt w'
      /\ trace w' = trace (demo_world [170; 187]) ++ evs
      /\ mem w' = [170; 187]
      /\ line_level (_do_pin demo_bus) High evs = Low.
Proof.
  assert (Hf : (128 < 129)%nat) by lia.
  assert (Hd : 0 <= 2 <= 127) by lia.
  assert (Hm : (Z.to_nat 2 <= length (mem (demo_world [170; 187]%Z)))%nat)
    by (vm_compute; lia).
  destruct (X9_write_leaves_out_low_and_buffer_alone demo_bus 129 5 2 _ High
              Hf Hd Hm) as (w' & evs & Hrun & Htr & _ & _ & Hmem & Hl).
  split; [exact Hf|]. split; [exact Hd|]. split; [exact Hm|].
  exists w', evs. split; [exact Hrun|]. split; [exact Htr|].
  split; [exact Hmem | exact Hl].
Defined.

(** X10. A read drives OUT only while it sends the address byte: the
    RECEIVE branch has no counterpart of the final [digitalWrite(_do_pin,
    LOW)] of the SEND branch.  So, with OUT on a pin of its own, a read
    leaves OUT at the level of the last address bit sent, which is bit 3
    of [address]. *)
Theorem X10_read_leaves_out_at_address_bit_3
        (self : SanyoCCB) (fuel : nat) (address dataLength : Z) (w : world)
        (cur : level) :
  (128 < fuel)%nat ->
  0 <= address <= 255 ->
  0 <= dataLength <= 127 ->
  (Z.to_nat dataLength <= length (mem w))%nat ->
  _do_pin self <> _cl_pin self ->
  _do_pin self <> _ce_pin self ->
  exists w' rest,
    read self fuel address dataLength w = Done tt w'
    /\ trace w' = trace w ++ address_events self address ++ rest
    /\ quiet (_do_pin self) rest = true
    /\ line_level (_do_pin self) cur (address_events self address ++ rest)
       = level_of_bit (Z.testbit address 3).
Proof.
  intros Hf Ha Hd Hm Hdc Hde.
  eexists; eexists. split.
  { apply read_run; [exact Hf | lia | exact Hm]. }
  cbn [trace]. split; [reflexivity|].
  assert (Hq : quiet (_do_pin self)
                 (enter_events self
                    ++ rx_events self (sampled w) (reads w) (receive_count dataLength)
                    ++ exit_events self) = true).
  { rewrite !quiet_app, quiet_rx by exact Hdc.
    unfold quiet, enter_events, exit_events. cbn [forallb writes_to].
    now rewrite (neq_eqb_false _ _ Hdc), (neq_eqb_false _ _ Hde). }
  split; [exact Hq|].
  rewrite line_level_app, (line_level_quiet _ _ _ Hq).
  unfold address_events.
  rewrite writeByte_out_level by exact Hdc.
  now rewrite framed_address_top_bit.
Qed.

Lemma X10_read_leaves_out_at_address_bit_3_witness :
  (128 < 129)%nat
  /\ 0 <= 8 <= 255
  /\ 0 <= 2 <= 127
  /\ (Z.to_nat 2 <= length (mem (demo_world [170; 187]%Z)))%nat
  /\ _do_pin demo_bus <> _cl_pin demo_bus
  /\ _do_pin demo_bus <> _ce_pin demo_bus
  /\ exists w' rest,
      read demo_bus 129 8 2 (demo_world [170; 187]) = Done tt w'
      /\ line_level (_do_pin demo_bus) Low (address_events demo_bus 8 ++ rest)
         = High.
Proof.
  assert (Hf : (128 < 129)%nat) by lia.
  assert (Ha : 0 <= 8 <= 255) by lia.
  assert (Hd : 0 <= 2 <= 127) by lia.
  assert (Hm : (Z.to_nat 2 <= length (mem (demo_world [170; 187]%Z)))%nat)
    by (vm_compute; lia).
  assert (H1 : _do_pin demo_bus <> _cl_pin demo_bus) by (vm_compute; discriminate).
  assert (H2 : _do_pin demo_bus <> _ce_pin demo_bus) by (vm_compute; discriminate).
  destruct (X10_read_leaves_out_at_address_bit_3 demo_bus 129 8 2 _ Low
              Hf Ha Hd Hm H1 H2) as (w' & rest & Hrun & _ & _ & Hl).
  split; [exact Hf|]. split; [exact Ha|]. split; [exact Hd|]. split; [exact Hm|].
  split; [exact H1|]. split; [exact H2|].
  exists w', rest. split; [exact Hrun | exact Hl].
Defined.

(** *** Calls one after the other *)

Lemma init_run (self : SanyoCCB) (w : world) :
  init self w
  = Done tt
      (emit [ PinMode (_do_pin self) OUTPUT;
              PinMode (_cl_pin self) OUTPUT;
              PinMode (_ce_pin self) OUTPUT;
              PinMode (_di_pin self) INPUT;
              DigitalWrite (_di_pin self) High;
              DigitalWrite (_do_pin self) Low;
              DigitalWrite (_cl_pin self) Low;
              DigitalWrite (_ce_pin self) High; DelayMicroseconds CCB_DELAY;
              DigitalWrite (_ce_pin self) Low; DelayMicroseconds CCB_DELAY ] w).
Proof.
  unfold init. repeat (erewrite bind_Done by reflexivity).
  unfold delayMicroseconds. rewrite !emit_emit. reflexivity.
Qed.

(** A call within the contract, made on a bus whose ENABLE and CLOCK are
    low, returns, keeps the size of the buffer and leaves both lines low;
    [init] does so whatever the lines were. *)
Lemma call_keeps_idle (self : SanyoCCB) (fuel : nat) (c : call) (w : world)
      (e0 c0 : level) :
  (128 < fuel)%nat ->
  _ce_pin self <> _do_pin self ->
  _ce_pin self <> _cl_pin self ->
  within_contract (length (mem w)) c ->
  (c = CallInit
   \/ (line_level (_ce_pin self) e0 (trace w) = Low
       /\ line_level (_cl_pin self) c0 (trace w) = Low)) ->
  exists w',
    run_call self fuel c w = Done tt w'
    /\ length (mem w') = length (mem w)
    /\ line_level (_ce_pin self) e0 (trace w') = Low
    /\ line_level (_cl_pin self) c0 (trace w') = Low.
Proof.
  intros Hf Hcd Hcc Hv Hidle.
  destruct c as [|address dataLength|address dataLength|]; cbn [run_call].
  - eexists. split; [apply init_run|].
    cbn [emit trace mem]. split; [reflexivity|].
    rewrite !line_level_app. unfold line_level at 1 3.
    cbn [fold_left drive]. rewrite !Z.eqb_refl.
    split; [reflexivity|].
    now rewrite (neq_eqb_false _ _ (not_eq_sym Hcc)).
  - destruct Hidle as [Hi | (He & Hc)]; [discriminate|].
    destruct Hv as (Hd & Hm).
    eexists. split.
    { apply write_run; [exact Hf|]. rewrite send_count_in_range; assumption. }
    cbn [emit trace mem]. split; [reflexivity|].
    destruct (transfer_levels self address
                (send_events self (rev (take (send_count dataLength) (mem w))))
                Hcd Hcc) as (_ & _ & L3 & L4).
    { now apply quiet_send. }
    { apply send_clock_low. }
    split; [rewrite line_level_app, He; exact L3 | rewrite line_level_app, Hc; apply L4].
  - destruct Hidle as [Hi | (He & Hc)]; [discriminate|].
    destruct Hv as (Hd & Hm).
    eexists. split.
    { apply read_run; [exact Hf | lia | exact Hm]. }
    cbn [trace mem]. unfold receive_count.
    split.
    { rewrite length_app, length_drop, rx_bytes_map, length_map, length_seq. lia. }
    destruct (transfer_levels self address
                (rx_events self (sampled w) (reads w) (Z.to_nat dataLength))
                Hcd Hcc) as (_ & _ & L3 & L4).
    { now apply quiet_rx. }
    { apply rx_clock_low. }
    split; [rewrite line_level_app, He; exact L3 | rewrite line_level_app, Hc; apply L4].
  - destruct Hidle as [Hi | (He & Hc)]; [discriminate|].
    eexists. split; [reflexivity|].
    cbn [trace mem]. split; [reflexivity|].
    rewrite !line_level_app, He, Hc. split; reflexivity.
Qed.

Lemma calls_keep_idle (self : SanyoCCB) (fuel : nat) (e0 c0 : level) (cs : list call) :
  (128 < fuel)%nat ->
  _ce_pin self <> _do_pin self ->
  _ce_pin self <> _cl_pin self ->
  forall w,
    Forall (within_contract (length (mem w))) cs ->
    line_level (_ce_pin self) e0 (trace w) = Low ->
    line_level (_cl_pin self) c0 (trace w) = Low ->
    exists w',
      run_calls self fuel cs w = Done tt w'
      /\ length (mem w') = length (mem w)
      /\ line_level (_ce_pin self) e0 (trace w') = Low
      /\ line_level (_cl_pin self) c0 (trace w') = Low.
Proof.
  intros Hf Hcd Hcc.
  induction cs as [|c cs IH]; intros w Hv He Hc.
  - exists w. repeat split; assumption.
  - inversion Hv as [|? ? Hv1 Hv2]; subst.
    destruct (call_keeps_idle self fuel c w e0 c0 Hf Hcd Hcc Hv1)
      as (w1 & Hrun & Hlen & He1 & Hc1); [right; split; assumption|].
    rewrite <- Hlen in Hv2.
    destruct (IH w1 Hv2 He1 Hc1) as (w' & Hrun' & Hlen' & He' & Hc').
    exists w'. cbn [run_calls].
    rewrite (bind_Done _ _ _ _ _ Hrun).
    split; [exact Hrun'|]. split; [congruence|]. split; assumption.
Qed.

(** X11. Once [init] has been called, every sequence of [write], [read],
    [diPinState] and further [init] calls that keeps to the contract
    (lengths within 0..127 and within the buffer) returns and leaves the
    bus idle, ENABLE low and CLOCK low, whatever the lines were before
    [init]; the buffer keeps its size.  ENABLE must not share its pin with
    OUT or CLOCK. *)
Theorem X11_calls_after_init_leave_bus_idle
        (self : SanyoCCB) (fuel : nat) (cs : list call) (w : world)
        (e0 c0 : level) :
  (128 < fuel)%nat ->
  _ce_pin self <> _do_pin self ->
  _ce_pin self <> _cl_pin self ->
  Forall (within_contract (length (mem w))) cs ->
  exists w',
    run_calls self fuel (CallInit :: cs) w = Done tt w'
    /\ length (mem w') = length (mem w)
    /\ line_level (_ce_pin self) e0 (trace w') = Low
    /\ line_level (_cl_pin self) c0 (trace w') = Low.
Proof.
  intros Hf Hcd Hcc Hv.
  destruct (call_keeps_idle self fuel CallInit w e0 c0 Hf Hcd Hcc I)
    as (w1 & Hrun & Hlen & He1 & Hc1); [left; reflexivity|].
  rewrite <- Hlen in Hv.
  destruct (calls_keep_idle self fuel e0 c0 cs Hf Hcd Hcc w1 Hv He1 Hc1)
    as (w' & Hrun' & Hlen' & He' & Hc').
  exists w'. cbn [run_calls].
  rewrite (bind_Done _ _ _ _ _ Hrun).
  split; [exact Hrun'|]. split; [congruence|]. split; assumption.
Qed.

Lemma X11_calls_after_init_leave_bus_idle_witness :
  (128 < 129)%nat
  /\ _ce_pin demo_bus <> _do_pin demo_bus
  /\ _ce_pin demo_bus <> _cl_pin demo_bus
  /\ Forall (within_contract (length (mem (demo_world [170; 187]))))
            [CallWrite 5 2; CallDiPinState; CallRead 5 1; CallInit; CallRead 6 0]
  /\ exists w',
      run_calls demo_bus 129
                (CallInit
                   :: [CallWrite 5 2; CallDiPinState; CallRead 5 1; CallInit;
                       CallRead 6 0])
                (demo_world [170; 187]) = Done tt w'
      /\ line_level (_ce_pin demo_bus) High (trace w') = Low
      /\ line_level (_cl_pin demo_bus) High (trace w') = Low.
Proof.
  assert (Hf : (128 < 129)%nat) by lia.
  assert (H1 : _ce_pin demo_bus <> _do_pin demo_bus) by (vm_compute; discriminate).
  assert (H2 : _ce_pin demo_bus <> _cl_pin demo_bus) by (vm_compute; discriminate).
  assert (Hv : Forall (within_contract (length (mem (demo_world [170; 187]))))
                 [CallWrite 5 2; CallDiPinState; CallRead 5 1; CallInit;
                  CallRead 6 0]).
  { repeat constructor; simpl; lia. }
  destruct (X11_calls_after_init_leave_bus_idle demo_bus 129 _ _ High High
              Hf H1 H2 Hv) as (w' & Hrun & _ & He & Hc).
  split; [exact Hf|]. split; [exact H1|]. split; [exact H2|]. split; [exact Hv|].
  exists w'. split; [exact Hrun|]. split; [exact He | exact Hc].
Defined.

Lemma rx_bytes_length (s : Z -> nat -> level) (pin : Z) (r n : nat) :
  length (rx_bytes s pin r n) = n.
Proof. now rewrite rx_bytes_map, length_map, length_seq. Qed.

(** X12. A read of [n] bytes followed by a write of [n] bytes from the
    same buffer sends back the bytes just received, the last received
    first. *)
Theorem X12_read_then_write_echoes_reversed
        (self : SanyoCCB) (fuel : nat) (a1 a2 dataLength : Z) (w : world) :
  (128 < fuel)%nat ->
  0 <= dataLength <= 127 ->
  (Z.to_nat dataLength <= length (mem w))%nat ->
  let n := Z.to_nat dataLength in
  let received := rx_bytes (sampled w) (_di_pin self) (reads w) n in
  exists w',
    (read self fuel a1 dataLength ;; write self fuel a2 dataLength) w = Done tt w'
    /\ trace w' = trace w
         ++ (address_events self a1 ++ enter_events self
               ++ rx_events self (sampled w) (reads w) n ++ exit_events self)
         ++ (address_events self a2 ++ enter_events self
               ++ flat_map (writeByte_events self) (rev received)
               ++ [DigitalWrite (_do_pin self) Low] ++ exit_events self)
    /\ mem w' = received ++ drop n (mem w).
Proof.
  intros Hf Hd Hm n received.
  eexists. split.
  { erewrite bind_Done by (apply read_run; [exact Hf | lia | exact Hm]).
    apply write_run; [exact Hf|].
    rewrite send_count_in_range by exact Hd.
    cbn [mem]. rewrite length_app, rx_bytes_length. unfold receive_count. lia. }
  cbn [emit trace mem].
  rewrite send_count_in_range by exact Hd.
  unfold receive_count. fold n. fold received.
  rewrite take_app_length' by (unfold received; now rewrite rx_bytes_length).
  split; [|reflexivity].
  unfold send_events, tx_events.
  repeat rewrite <- app_assoc. reflexivity.
Qed.

Lemma X12_read_then_write_echoes_reversed_witness :
  (128 < 129)%nat
  /\ 0 <= 2 <= 127
  /\ (Z.to_nat 2 <= length (mem (demo_world [1; 2; 3]%Z)))%nat
  /\ exists w',
      (read demo_bus 129 5 2 ;; write demo_bus 129 6 2) (demo_world [1; 2; 3])
      = Done tt w'
      /\ mem w' = [170; 170; 3].
Proof.
  assert (Hf : (128 < 129)%nat) by lia.
  assert (Hd : 0 <= 2 <= 127) by lia.
  assert (Hm : (Z.to_nat 2 <= length (mem (demo_world [1; 2; 3]%Z)))%nat)
    by (vm_compute; lia).
  destruct (X12_read_then_write_echoes_reversed demo_bus 129 5 6 2 _ Hf Hd Hm)
    as (w' & Hrun & _ & Hmem).
  split; [exact Hf|]. split; [exact Hd|]. split; [exact Hm|].
  exists w'. split; [exact Hrun | exact Hmem].
Defined.




(** X14. The one negative length that is not an empty transfer: in a
    write with [dataLength = -128] the counter starts at [-129] narrowed to
    [int8_t], which is 127.  On a buffer of at least 128 bytes the write
    sends its first 128 bytes, [data[127]] first; on a shorter buffer it
    reads [data[127]] outside it. *)
Theorem X14_write_of_length_minus_128
        (self : SanyoCCB) (fuel : nat) (address : Z) (w : world) :
  (128 < fuel)%nat ->
  ((128 <= length (mem w))%nat ->
   write self fuel address (-128) w
   = Done tt
       (emit (address_events self address
                ++ enter_events self
                ++ flat_map (writeByte_events self) (rev (take 128 (mem w)))
                ++ [DigitalWrite (_do_pin self) Low]
                ++ exit_events self) w))
  /\ ((length (mem w) < 128)%nat ->
      write self fuel address (-128) w = Undefined).
Proof.
  intros Hf.
  assert (Hc : send_count (-128) = 128%nat) by reflexivity.
  split; intros Hm.
  - rewrite write_run; [| exact Hf | rewrite Hc; exact Hm].
    rewrite Hc. unfold send_events, tx_events.
    now rewrite <- app_assoc.
  - apply write_overrun; [exact Hf | rewrite Hc; exact Hm].
Qed.

Lemma X14_write_of_length_minus_128_witness :
  (128 < 129)%nat
  /\ (128 <= length (mem (demo_world (repeat 85%Z 128%nat))))%nat
  /\ (length (mem (demo_world [170; 187]%Z)) < 128)%nat
  /\ write demo_bus 129 5 (-128) (demo_world (repeat 85 128))
     = Done tt
         (emit (address_events demo_bus 5
                  ++ enter_events demo_bus
                  ++ flat_map (writeByte_events demo_bus)
                              (rev (take 128 (mem (demo_world (repeat 85 128)))))
                  ++ [DigitalWrite (_do_pin demo_bus) Low]
                  ++ exit_events demo_bus) (demo_world (repeat 85 128)))
  /\ write demo_bus 129 5 (-128) (demo_world [170; 187]) = Undefined.
Proof.
  assert (Hf : (128 < 129)%nat) by lia.
  assert (Hl : (128 <= length (mem (demo_world (repeat 85%Z 128%nat))))%nat)
    by (vm_compute; lia).
  assert (Hm : (length (mem (demo_world [170; 187]%Z)) < 128)%nat)
    by (vm_compute; lia).
  destruct (X14_write_of_length_minus_128 demo_bus 129 5
              (demo_world (repeat 85 128)) Hf) as (H1 & _).
  destruct (X14_write_of_length_minus_128 demo_bus 129 5 (demo_world [170; 187]) Hf)
    as (_ & H2).
  split; [exact Hf|]. split; [exact Hl|]. split; [exact Hm|].
  split; [exact (H1 Hl) | exact (H2 Hm)].
Defined.

(** *** When lines change and when they are sampled *)

Lemma each_while_app (p : event -> bool) (pin : Z) (lvl : level) (e1 e2 : list event) :
  forall cur,
    each_while p pin lvl cur (e1 ++ e2)
    = each_while p pin lvl cur e1
      && each_while p pin lvl (line_level pin cur e1) e2.
Proof.
  induction e1 as [|e e1 IH]; intros cur; [reflexivity|].
  cbn [app each_while]. rewrite IH, andb_assoc. reflexivity.
Qed.

Lemma each_while_none (p : event -> bool) (pin : Z) (lvl : level) (evs : list event) :
  forallb (fun e => negb (p e)) evs = true ->
  forall cur, each_while p pin lvl cur evs = true.
Proof.
  induction evs as [|e evs IH]; intros H cur; [reflexivity|].
  cbn [forallb] in H. apply andb_true_iff in H as (He & Hr).
  cbn [each_while]. rewrite IH by exact Hr.
  now destruct (p e).
Qed.

Lemma each_while_quiet (p : event -> bool) (pin : Z) (lvl : level) (evs : list event) :
  quiet pin evs = true -> each_while p pin lvl lvl evs = true.
Proof.
  induction evs as [|e evs IH]; intros H; [reflexivity|].
  cbn [quiet forallb] in H. apply andb_true_iff in H as (He & Hq).
  cbn [each_while].
  assert (Hc : drive pin lvl e = lvl).
  { destruct e; try reflexivity.
    cbn [writes_to drive] in *. now destruct (pin0 =? pin). }
  rewrite Hc, IH by exact Hq.
  destruct (p e); [|reflexivity]. now destruct lvl.
Qed.

Lemma each_while_flat_map {A} (p : event -> bool) (pin : Z) (lvl : level)
      (f : A -> list event) (l : list A) :
  (forall x, each_while p pin lvl Low (f x) = true) ->
  (forall x cur, line_level pin cur (f x) = Low) ->
  each_while p pin lvl Low (flat_map f l) = true.
Proof.
  intros Hp Hl. induction l as [|x l IH]; [reflexivity|].
  cbn [flat_map]. now rewrite each_while_app, Hp, Hl, IH.
Qed.

Lemma writeByte_sets_out_while_clock_low (self : SanyoCCB) (b : Z) :
  _do_pin self <> _cl_pin self ->
  each_while (writes_to (_do_pin self)) (_cl_pin self) Low Low
             (writeByte_events self b) = true.
Proof.
  intros Hne. unfold writeByte_events.
  apply each_while_flat_map; [|intros i cur; apply out_bit_clock_low].
  intros i. unfold out_bit_events. cbn [each_while writes_to drive].
  now rewrite !Z.eqb_refl, !(neq_eqb_false _ _ Hne).
Qed.

(** X15. During a write OUT is only ever driven while CLOCK is low, so
    the level on OUT is stable from before each rising CLOCK edge until
    after the falling one (OUT, CLOCK and ENABLE on distinct pins, CLOCK
    low at the start). *)
Theorem X15_write_changes_out_only_while_clock_low
        (self : SanyoCCB) (fuel : nat) (address dataLength : Z) (w : world) :
  (128 < fuel)%nat ->
  0 <= dataLength <= 127 ->
  (Z.to_nat dataLength <= length (mem w))%nat ->
  _do_pin self <> _cl_pin self ->
  _ce_pin self <> _do_pin self ->
  _ce_pin self <> _cl_pin self ->
  exists w' evs,
    write self fuel address dataLength w = Done tt w'
    /\ trace w' = trace w ++ evs
    /\ each_while (writes_to (_do_pin self)) (_cl_pin self) Low Low evs = true.
Proof.
  intros Hf Hd Hm Hdc Hcd Hcc.
  eexists; eexists. split.
  { apply write_run; [exact Hf|]. rewrite send_count_in_range; assumption. }
  split; [reflexivity|].
  set (bs := rev (take (send_count dataLength) (mem w))).
  assert (Hce : (_ce_pin self =? _cl_pin self) = false)
    by now apply neq_eqb_false, not_eq_sym.
  assert (Hco : (_ce_pin self =? _do_pin self) = false)
    by now apply neq_eqb_false, not_eq_sym.
  assert (Hlo : (_cl_pin self =? _do_pin self) = false)
    by now apply neq_eqb_false.
  assert (Hol : (_do_pin self =? _cl_pin self) = false)
    by now apply neq_eqb_false, not_eq_sym.
  assert (Htx : each_while (writes_to (_do_pin self)) (_cl_pin self) Low Low
                           (tx_events self bs) = true).
  { unfold tx_events. apply each_while_flat_map.
    - intros b. now apply writeByte_sets_out_while_clock_low.
    - intros b cur. apply writeByte_clock_low. }
  assert (Hl : line_level (_cl_pin self) Low (tx_events self bs) = Low).
  { unfold tx_events. apply flat_map_rests_low.
    intros b c. apply writeByte_clock_low. }
  assert (HE : each_while (writes_to (_do_pin self)) (_cl_pin self) Low Low
                          (enter_events self) = true).
  { apply each_while_none. unfold enter_events. cbn [forallb writes_to].
    now rewrite Hlo, Hco. }
  assert (E2 : line_level (_cl_pin self) Low (enter_events self) = Low).
  { unfold enter_events, line_level. cbn [fold_left drive].
    now rewrite Z.eqb_refl, Hce. }
  assert (HD : each_while (writes_to (_do_pin self)) (_cl_pin self) Low Low
                          [DigitalWrite (_do_pin self) Low] = true).
  { cbn [each_while writes_to]. now rewrite Z.eqb_refl. }
  assert (D2 : line_level (_cl_pin self) Low [DigitalWrite (_do_pin self) Low] = Low).
  { unfold line_level. cbn [fold_left drive]. now rewrite Hol. }
  assert (HX : forall cur, each_while (writes_to (_do_pin self)) (_cl_pin self) Low cur
                                      (exit_events self) = true).
  { apply each_while_none. unfold exit_events. cbn [forallb writes_to].
    now rewrite Hco. }
  unfold address_events, send_events.
  rewrite !each_while_app, !line_level_app.
  rewrite writeByte_sets_out_while_clock_low by exact Hdc.
  rewrite writeByte_clock_low, HE, E2, Htx, Hl, HD, HX.
  reflexivity.
Qed.

Lemma X15_write_changes_out_only_while_clock_low_witness :
  (128 < 129)%nat
  /\ 0 <= 2 <= 127
  /\ (Z.to_nat 2 <= length (mem (demo_world [170; 187]%Z)))%nat
  /\ _do_pin demo_bus <> _cl_pin demo_bus
  /\ _ce_pin demo_bus <> _do_pin demo_bus
  /\ _ce_pin demo_bus <> _cl_pin demo_bus
  /\ exists w' evs,
      write demo_bus 129 5 2 (demo_world [170; 187]) = Done tt w'
      /\ trace w' = trace (demo_world [170; 187]) ++ evs
      /\ each_while (writes_to (_do_pin demo_bus)) (_cl_pin demo_bus) Low Low evs
         = true.
Proof.
  assert (Hf : (128 < 129)%nat) by lia.
  assert (Hd : 0 <= 2 <= 127) by lia.
  assert (Hm : (Z.to_nat 2 <= length (mem (demo_world [170; 187]%Z)))%nat)
    by (vm_compute; lia).
  assert (H1 : _do_pin demo_bus <> _cl_pin demo_bus) by (vm_compute; discriminate).
  assert (H2 : _ce_pin demo_bus <> _do_pin demo_bus) by (vm_compute; discriminate).
  assert (H3 : _ce_pin demo_bus <> _cl_pin demo_bus) by (vm_compute; discriminate).
  pose proof (X15_write_changes_out_only_while_clock_low demo_bus 129 5 2 _
                Hf Hd Hm H1 H2 H3) as H.
  split; [exact Hf|]. split; [exact Hd|]. split; [exact Hm|].
  split; [exact H1|]. split; [exact H2|]. split; [exact H3 | exact H].
Defined.

Lemma in_bit_samples_while_clock_high (self : SanyoCCB) (v : level) :
  each_while is_sample (_cl_pin self) High Low (in_bit_events self v) = true.
Proof.
  unfold in_bit_events. cbn [each_while is_sample drive].
  now rewrite Z.eqb_refl.
Qed.

Lemma rx_samples_while_clock_high (self : SanyoCCB) (s : Z -> nat -> level) (r n : nat) :
  each_while is_sample (_cl_pin self) High Low (rx_events self s r n) = true.
Proof.
  rewrite rx_events_flat_map.
  apply each_while_flat_map.
  - intros i. apply each_while_flat_map.
    + intros v. apply in_bit_samples_while_clock_high.
    + intros v cur. apply in_bit_clock_low.
  - intros i cur. unfold upcoming, readByte_events. cbn [seq map flat_map].
    rewrite line_level_app, in_bit_clock_low.
    apply (flat_map_rests_low _ (in_bit_events self)
             (map (s (_di_pin self)) (seq (S (r + 8 * i)) 7))).
    intros v c. apply in_bit_clock_low.
Qed.

(** X16. During a read IN is sampled only while CLOCK is high and ENABLE
    is high: each sample is taken after the rising CLOCK edge of its bit
    and before the falling one, inside the data phase.  The read takes
    exactly eight samples per byte (ENABLE and CLOCK on distinct pins,
    CLOCK low at the start). *)
Theorem X16_read_samples_in_while_clock_and_enable_high
        (self : SanyoCCB) (fuel : nat) (address dataLength : Z) (w : world)
        (e0 : level) :
  (128 < fuel)%nat ->
  0 <= dataLength <= 127 ->
  (Z.to_nat dataLength <= length (mem w))%nat ->
  _ce_pin self <> _cl_pin self ->
  exists w' evs,
    read self fuel address dataLength w = Done tt w'
    /\ trace w' = trace w ++ evs
    /\ each_while is_sample (_cl_pin self) High Low evs = true
    /\ each_while is_sample (_ce_pin self) High e0 evs = true
    /\ reads w' = (reads w + 8 * Z.to_nat dataLength)%nat.
Proof.
  intros Hf Hd Hm Hcc.
  eexists; eexists. split.
  { apply read_run; [exact Hf | lia | exact Hm]. }
  cbn [trace reads]. split; [reflexivity|].
  unfold receive_count.
  set (rx := rx_events self (sampled w) (reads w) (Z.to_nat dataLength)).
  assert (Hce : (_ce_pin self =? _cl_pin self) = false)
    by now apply neq_eqb_false, not_eq_sym.
  assert (HA : forall pin lvl cur,
             each_while is_sample pin lvl cur (address_events self address) = true).
  { intros pin lvl cur. apply each_while_none.
    unfold address_events, writeByte_events. apply forallb_flat_map. reflexivity. }
  assert (HE : forall pin lvl cur,
             each_while is_sample pin lvl cur (enter_events self) = true).
  { intros pin lvl cur. apply each_while_none. reflexivity. }
  assert (HX : forall pin lvl cur,
             each_while is_sample pin lvl cur (exit_events self) = true).
  { intros pin lvl cur. apply each_while_none. reflexivity. }
  assert (E2 : line_level (_cl_pin self) Low (enter_events self) = Low).
  { unfold enter_events, line_level. cbn [fold_left drive].
    now rewrite Z.eqb_refl, Hce. }
  assert (E3 : forall cur, line_level (_ce_pin self) cur (enter_events self) = High).
  { intros cur. unfold enter_events, line_level. cbn [fold_left drive].
    now rewrite Z.eqb_refl. }
  split; [|split; [|lia]].
  - rewrite !each_while_app, HA, HE, HX.
    unfold address_events. rewrite writeByte_clock_low, E2.
    unfold rx. now rewrite rx_samples_while_clock_high.
  - rewrite !each_while_app, HA, HE, HX, E3.
    rewrite each_while_quiet by now apply quiet_rx.
    reflexivity.
Qed.

Lemma X16_read_samples_in_while_clock_and_enable_high_witness :
  (128 < 129)%nat
  /\ 0 <= 2 <= 127
  /\ (Z.to_nat 2 <= length (mem (demo_world [170; 187]%Z)))%nat
  /\ _ce_pin demo_bus <> _cl_pin demo_bus
  /\ exists w' evs,
      read demo_bus 129 5 2 (demo_world [170; 187]) = Done tt w'
      /\ trace w' = trace (demo_world [170; 187]) ++ evs
      /\ each_while is_sample (_cl_pin demo_bus) High Low evs = true
      /\ each_while is_sample (_ce_pin demo_bus) High Low evs = true
      /\ reads w' = 16%nat.
Proof.
  assert (Hf : (128 < 129)%nat) by lia.
  assert (Hd : 0 <= 2 <= 127) by lia.
  assert (Hm : (Z.to_nat 2 <= length (mem (demo_world [170; 187]%Z)))%nat)
    by (vm_compute; lia).
  assert (H2 : _ce_pin demo_bus <> _cl_pin demo_bus) by (vm_compute; discriminate).
  pose proof (X16_read_samples_in_while_clock_and_enable_high demo_bus 129 5 2 _ Low
                Hf Hd Hm H2) as H.
  split; [exact Hf|]. split; [exact Hd|]. split; [exact Hm|].
  split; [exact H2 | exact H].
Defined.
